(** * widgetastic_patternfly5.components.menus.select

    A shallow embedding of [select.py]: the [BaseSelect] and
    [BaseCheckboxSelect] mixins and the two concrete widgets [Select] and
    [CheckboxSelect], together with the properties their documentation
    states about them.

    Python methods are functions in a state-and-exception monad over the
    rendered page.  A method that calls [self.m(...)] or [super().m(...)]
    takes the method it dispatches to as a [Variable] of its [Section]
    (open recursion); the concrete widgets at the end of the file tie the
    knot the way the method resolution order does. *)

From stdpp Require Import base option list strings.

Set Default Proof Using "Type".
Open Scope string_scope.
Open Scope list_scope.

(** ** Exceptions *)

(** The text of an exception is kept as the format template and the
    arguments given to [str.format], so that what a message enumerates can
    be read off it. *)
Inductive template : Type :=
  | TplItemNotFoundIn
      (* "Item {!r} not found in {}. Available items: {}" *)
  | TplItemDisabled
      (* 'Item "{}" of {} is disabled\n'
         "The following items are available and enabled: {}" *)
  | TplItemNotFound
      (* "Item {!r} not found." *)
  | TplBase
      (* a message built by the base dropdown *).

Inductive fmt_arg : Type :=
  | ArgStr (s : string)          (* a string formatted with {} *)
  | ArgRepr (s : string)         (* a string formatted with {!r} *)
  | ArgSelf                      (* repr(self) *)
  | ArgList (l : list string)    (* a list of strings formatted with {} *).

Record message : Type := Format { msg_template : template; msg_args : list fmt_arg }.

Inductive exn : Type :=
  | NoSuchElementException
  | DropdownItemDisabled (m : message)
  | DropdownItemNotFound (m : message)
  | SelectItemDisabled (m : message)     (* class SelectItemDisabled(DropdownItemDisabled) *)
  | SelectItemNotFound (m : message)     (* class SelectItemNotFound(DropdownItemNotFound) *).

(** [isinstance(e, DropdownItemNotFound)]: what [except DropdownItemNotFound]
    catches, the subclass included. *)
Definition is_DropdownItemNotFound (e : exn) : bool :=
  match e with
  | DropdownItemNotFound _ | SelectItemNotFound _ => true
  | _ => false
  end.

Definition is_DropdownItemDisabled (e : exn) : bool :=
  match e with
  | DropdownItemDisabled _ | SelectItemDisabled _ => true
  | _ => false
  end.

Definition is_NoSuchElementException (e : exn) : bool :=
  match e with
  | NoSuchElementException => true
  | _ => false
  end.

(** ** The monad of widget methods *)

Inductive result (A : Type) : Type :=
  | Ok (a : A)
  | Raise (e : exn).
Arguments Ok {A} a.
Arguments Raise {A} e.

Definition M (W A : Type) : Type := W → result A * W.

Definition ret {W A} (a : A) : M W A := λ w, (Ok a, w).

Definition bind {W A B} (m : M W A) (k : A → M W B) : M W B :=
  λ w, match m w with
       | (Ok a, w1) => k a w1
       | (Raise e, w1) => (Raise e, w1)
       end.

Definition raise {W A} (e : exn) : M W A := λ w, (Raise e, w).

Declare Scope py_scope.
Delimit Scope py_scope with py.
Notation "x <- m ;; k" := (bind m (λ x, k))
  (at level 100, m at next level, right associativity) : py_scope.
Notation "m ;; k" := (bind m (λ _, k))
  (at level 100, right associativity) : py_scope.
Open Scope py_scope.

(** [try: body  except E: handler]: [catches] is the [isinstance] test of
    the [except] clause. *)
Definition try_except {W A} (body : M W A) (catches : exn → bool)
    (handler : M W A) : M W A :=
  λ w, match body w with
       | (Ok a, w1) => (Ok a, w1)
       | (Raise e, w1) => if catches e then handler w1 else (Raise e, w1)
       end.

(** [try: body  finally: cleanup].  The cleanup runs on both exits; the
    outcome of the body stands unless the cleanup raises itself. *)
Definition try_finally {W A} (body : M W A) (cleanup : M W unit) : M W A :=
  λ w, match body w with
       | (r, w1) =>
           match cleanup w1 with
           | (Ok _, w2) => (r, w2)
           | (Raise e, w2) => (Raise e, w2)
           end
       end.

(** [for x in xs: body(x)], leaving the loop at the first exception. *)
Fixpoint for_each {W A} (xs : list A) (body : A → M W unit) : M W unit :=
  match xs with
  | [] => ret ()
  | x :: xs' => body x ;; for_each xs' body
  end.

(** ** Python dictionaries

    A [dict] keeps its keys in insertion order and assigning to a key that is
    already there replaces the value in place. *)
Module PyDict.

Definition dict (V : Type) : Type := list (string * V).

Definition empty {V} : dict V := [].

Fixpoint get {V} (k : string) (d : dict V) : option V :=
  match d with
  | [] => None
  | (k', v) :: d' => if decide (k' = k) then Some v else get k d'
  end.

(** [d[k] = v] *)
Fixpoint set {V} (k : string) (v : V) (d : dict V) : dict V :=
  match d with
  | [] => [(k, v)]
  | (k', v') :: d' =>
      if decide (k' = k) then (k, v) :: d' else (k', v') :: set k v d'
  end.

Definition keys {V} (d : dict V) : list string := d.*1.

End PyDict.

(** ** The rendered page and the browser

    The widget owns no state: everything it reads or changes is the live DOM
    subtree under its container.  The browser layer ([self.browser]) belongs
    to the widgetastic framework; here it is a model of the page with the
    operations the widget calls on it. *)

(** One [li] of the menu list: its normalised visible text, its style
    classes, and the checked state of its [input] when it has one. *)
Record Row : Type := mkRow {
  row_text : string;
  row_classes : list string;
  row_input : option bool
}.

(** Handles to DOM elements, as [browser.element] returns them. *)
Inductive elem : Type :=
  | Button                 (* the trigger button *)
  | ListItem (i : nat)     (* the i-th list entry *)
  | Input (i : nat)        (* the toggle control inside the i-th list entry *).

Record Page : Type := mkPage {
  rows : list Row;          (* the entries of the menu, in document order *)
  is_open : bool;           (* the menu is expanded *)
  button_text : string;     (* visible text of the trigger button *)
  clicks : list elem        (* every click made on an element, oldest first *)
}.

Definition set_open (b : bool) (p : Page) : Page :=
  mkPage (rows p) b (button_text p) (clicks p).

Definition labels (p : Page) : list string := row_text <$> rows p.

(** The locators of the classes.  [quote(item)] turns the label into an XPath
    string literal; the locator carries the label it stands for. *)
Inductive locator : Type :=
  | BUTTON_LOCATOR
      (* ".//button" *)
  | ITEMS_LOCATOR
      (* ".//ul[@class='pf-v5-c-menu__list']/li[contains(@class, 'pf-v5-c-menu__list-item')]" *)
  | ITEM_LOCATOR_BASE (item : string)
      (* ".//*[contains(@class, 'pf-v5-c-menu__list-item') and normalize-space(.)={}]" *)
  | ITEM_LOCATOR_INPUT (item : string)
      (* f"{ITEM_LOCATOR_BASE}//input" *).

Definition has_text (item : string) (r : Row) : bool :=
  bool_decide (row_text r = item).

Definition has_input (r : Row) : bool :=
  match row_input r with Some _ => true | None => false end.

(** The entries matching [want], as handles built by [mk], in document
    order; [i] is the index of the head of [rs]. *)
Fixpoint matching (want : Row → bool) (mk : nat → elem) (i : nat)
    (rs : list Row) : list elem :=
  match rs with
  | [] => []
  | r :: rs' =>
      if want r then mk i :: matching want mk (S i) rs'
      else matching want mk (S i) rs'
  end.

(** The elements a locator selects.  The menu list is part of the document
    only while the menu is expanded. *)
Definition select_all (loc : locator) (p : Page) : list elem :=
  match loc with
  | BUTTON_LOCATOR => [Button]
  | ITEMS_LOCATOR =>
      if is_open p then matching (λ _, true) ListItem 0 (rows p) else []
  | ITEM_LOCATOR_BASE item =>
      if is_open p then matching (has_text item) ListItem 0 (rows p) else []
  | ITEM_LOCATOR_INPUT item =>
      if is_open p
      then matching (λ r, has_text item r && has_input r) Input 0 (rows p)
      else []
  end.

Module browser.

(** [browser.elements(locator)] *)
Definition elements (loc : locator) : M Page (list elem) :=
  λ p, (Ok (select_all loc p), p).

(** [browser.element(locator)]: the first match, or
    [NoSuchElementException]. *)
Definition element (loc : locator) : M Page elem :=
  λ p, match select_all loc p with
       | e :: _ => (Ok e, p)
       | [] => (Raise NoSuchElementException, p)
       end.

(** [browser.element(parent=el, locator=".//input")] *)
Definition element_input (parent : elem) : M Page elem :=
  λ p, match parent with
       | ListItem i =>
           match rows p !! i with
           | Some r => if has_input r then (Ok (Input i), p)
                       else (Raise NoSuchElementException, p)
           | None => (Raise NoSuchElementException, p)
           end
       | _ => (Raise NoSuchElementException, p)
       end.

Definition text_of (el : elem) (p : Page) : string :=
  match el with
  | Button => button_text p
  | ListItem i | Input i =>
      match rows p !! i with Some r => row_text r | None => EmptyString end
  end.

(** [browser.text(element)] *)
Definition text (el : elem) : M Page string :=
  λ p, (Ok (text_of el p), p).

(** [browser.text(locator)] *)
Definition text_at (loc : locator) : M Page string :=
  el <- element loc ;; text el.

(** [browser.classes(element)] *)
Definition classes (el : elem) : M Page (list string) :=
  λ p, (Ok match el with
           | ListItem i =>
               match rows p !! i with Some r => row_classes r | None => [] end
           | _ => []
           end, p).

Definition selected_of (el : elem) (p : Page) : bool :=
  match el with
  | Input i =>
      match rows p !! i with
      | Some r => match row_input r with Some b => b | None => false end
      | None => false
      end
  | _ => false
  end.

(** [browser.is_selected(element)] and [element.is_selected()] *)
Definition is_selected (el : elem) : M Page bool :=
  λ p, (Ok (selected_of el p), p).

Definition toggle (r : Row) : Row :=
  mkRow (row_text r) (row_classes r) (negb <$> row_input r).

(** What the page does on a click: a toggle control flips its checked
    state; a list entry of a single select becomes the value shown by the
    trigger button. *)
Definition after_click (el : elem) (p : Page) : Page :=
  match el with
  | Input i =>
      mkPage (alter toggle i (rows p)) (is_open p) (button_text p)
             (clicks p ++ [el])
  | ListItem i =>
      mkPage (rows p) (is_open p) (text_of el p) (clicks p ++ [el])
  | Button =>
      mkPage (rows p) (is_open p) (button_text p) (clicks p ++ [el])
  end.

(** [element.click()] and [browser.click(element)] *)
Definition click (el : elem) : M Page unit :=
  λ p, (Ok (), after_click el p).

End browser.

(** ** Dropdown (dropdown.py)

    [select.py] imports its base class from [.dropdown]. *)
Module Dropdown.

(** Modelled from the spec: [Dropdown.open] of dropdown.py, "opens the menu
    if closed". *)
Definition open : M Page unit := λ p, (Ok (), set_open true p).

(** Modelled from the spec: [Dropdown.close] of dropdown.py, the release of
    the open state. *)
Definition close : M Page unit := λ p, (Ok (), set_open false p).

(** Modelled from the spec: [Dropdown.opened] of dropdown.py, the context
    manager of [with self.opened():], "scoped: guaranteed close on exit
    even on error". *)
Definition opened {A} (body : M Page A) : M Page A :=
  open ;; try_finally body close.

Section Methods.

(** What [self.ITEM_LOCATOR] and [self.item_element] resolve to in the
    class of the widget. *)
Variable ITEM_LOCATOR : string → locator.
Variable self_item_element : string → bool → M Page elem.

(** Modelled from the spec: [Dropdown.item_element(item, close)] of
    dropdown.py, the base lookup of the option whose text equals [item],
    "raising DropdownItemNotFound on failure". *)
Definition item_element (item : string) (close_ : bool) : M Page elem :=
  try_except
    (open ;;
     el <- browser.element (ITEM_LOCATOR item) ;;
     (if close_ then close else ret ()) ;;
     ret el)
    is_NoSuchElementException
    (raise (DropdownItemNotFound (Format TplBase [ArgRepr item]))).

Definition is_disabled (r : Row) : bool :=
  bool_decide ("pf-m-disabled" ∈ row_classes r).

(** Modelled from the spec: [Dropdown.enabled_items] of dropdown.py, the
    "list of enabled item labels". *)
Definition enabled_items : M Page (list string) :=
  opened (λ p, (Ok (row_text <$> filter (λ r, is_disabled r = false) (rows p)), p)).

(** Modelled from the spec: [Dropdown.items] of dropdown.py, the "list of
    item labels". *)
Definition items : M Page (list string) :=
  opened (els <- browser.elements ITEMS_LOCATOR ;;
          λ p, (Ok ((λ el, browser.text_of el p) <$> els), p)).

(** Modelled from the spec: [Dropdown.item_select(item)] of dropdown.py,
    "opens the menu if closed, selects item, closes the menu", raising
    [DropdownItemDisabled] for an item that is present but not
    selectable. *)
Definition item_select (item : string) : M Page unit :=
  try_finally
    (el <- self_item_element item false ;;
     cls <- browser.classes el ;;
     if bool_decide ("pf-m-disabled" ∈ cls)
     then raise (DropdownItemDisabled (Format TplBase [ArgStr item]))
     else browser.click el)
    close.

End Methods.

End Dropdown.

(** ** class BaseSelect *)
Module BaseSelect.

(** [ITEM_LOCATOR] of the class. *)
Definition ITEM_LOCATOR : string → locator := ITEM_LOCATOR_BASE.

Section Methods.

Context {W : Type}.

(** [super().item_element], [super().item_select], and what [self.items],
    [self.enabled_items] and [self.item_select] resolve to in the class
    of the widget. *)
Variable super_item_element : string → bool → M W elem.
Variable super_item_select : string → M W unit.
Variable self_items : M W (list string).
Variable self_enabled_items : M W (list string).
Variable self_item_select : string → M W unit.

(** [def item_element(self, item, close=True)] *)
Definition item_element (item : string) (close : bool) : M W elem :=
  try_except
    (super_item_element item close)
    is_DropdownItemNotFound
    (its <- self_items ;;
     raise (SelectItemNotFound
              (Format TplItemNotFoundIn [ArgRepr item; ArgSelf; ArgList its]))).

(** [def item_select(self, item)] *)
Definition item_select (item : string) : M W unit :=
  try_except
    (super_item_select item)
    is_DropdownItemDisabled
    (its <- self_enabled_items ;;
     raise (SelectItemDisabled
              (Format TplItemDisabled [ArgStr item; ArgSelf; ArgList its]))).

(** [def fill(self, value)] *)
Definition fill (value : string) : M W unit :=
  self_item_select value.

End Methods.

(** [def read(self)] *)
Definition read : M Page string :=
  browser.text_at BUTTON_LOCATOR.

End BaseSelect.

(** ** class Select(BaseSelect, Dropdown) *)
Module Select.

Definition items : M Page (list string) := Dropdown.items.

Definition enabled_items : M Page (list string) := Dropdown.enabled_items.

Definition item_element : string → bool → M Page elem :=
  BaseSelect.item_element (Dropdown.item_element BaseSelect.ITEM_LOCATOR) items.

Definition item_select : string → M Page unit :=
  BaseSelect.item_select (Dropdown.item_select item_element) enabled_items.

Definition fill : string → M Page unit := BaseSelect.fill item_select.

Definition read : M Page string := BaseSelect.read.

End Select.

(** ** class BaseCheckboxSelect(BaseSelect) *)

(** The [items] argument of [item_select] and [item_deselect]: one label, or
    a [list], [tuple] or [set] of labels in its iteration order. *)
Inductive items_arg : Type :=
  | Single (item : string)
  | Many (items : list string).

Module BaseCheckboxSelect.

(** [ITEM_LOCATOR_BASE] and [ITEM_LOCATOR] of the class. *)
Definition ITEM_LOCATOR_BASE : string → locator := ITEM_LOCATOR_BASE.
Definition ITEM_LOCATOR : string → locator := ITEM_LOCATOR_INPUT.

(** [if not isinstance(items, (list, tuple, set)): items = [items]] *)
Definition as_list (items : items_arg) : list string :=
  match items with
  | Single item => [item]
  | Many items => items
  end.

Section Methods.

(** What [self.item_element] resolves to in the class of the widget;
    [self.open], [self.close] and [self.opened] are the dropdown's. *)
Variable self_item_element : string → bool → M Page elem.

(** The body of the [for] loop of [item_select]. *)
Definition select_one (item : string) : M Page unit :=
  element <- self_item_element item false ;;
  sel <- browser.is_selected element ;;
  if negb sel then browser.click element else ret ().

(** [def item_select(self, items, close=True)] *)
Definition item_select (items : items_arg) (close : bool) : M Page unit :=
  try_finally
    (for_each (as_list items) select_one)
    (if close then Dropdown.close else ret ()).

(** The body of the [for] loop of [item_deselect]. *)
Definition deselect_one (item : string) : M Page unit :=
  element <- self_item_element item false ;;
  sel <- browser.is_selected element ;;
  if sel then browser.click element else ret ().

(** [def item_deselect(self, items, close=True)] *)
Definition item_deselect (items : items_arg) (close : bool) : M Page unit :=
  try_finally
    (for_each (as_list items) deselect_one)
    (if close then Dropdown.close else ret ()).

End Methods.

(** [def item_enabled(self, item, close=True, **kwargs)] *)
Definition item_enabled (item : string) (close : bool) : M Page bool :=
  try_except
    (Dropdown.open ;;
     el <- browser.element (ITEM_LOCATOR_BASE item) ;;
     cls <- browser.classes el ;;
     let is_enabled := negb (bool_decide ("pf-m-disabled" ∈ cls)) in
     (if close then Dropdown.close else ret ()) ;;
     ret is_enabled)
    is_NoSuchElementException
    (raise (SelectItemNotFound (Format TplItemNotFound [ArgRepr item]))).

Section Fill.

Context {W : Type}.

(** What [self.item_select], [self.item_deselect] and [self.close]
    resolve to in the class of the widget. *)
Variable self_item_select : items_arg → bool → M W unit.
Variable self_item_deselect : items_arg → bool → M W unit.
Variable self_close : M W unit.

(** The body of the [for] loop of [fill]. *)
Definition fill_entry (entry : string * bool) : M W unit :=
  let '(item, value) := entry in
  if value then self_item_select (Single item) false
  else self_item_deselect (Single item) false.

(** [def fill(self, items)]; [items.items()] yields the entries of the
    dictionary in insertion order. *)
Definition fill (items : PyDict.dict bool) : M W unit :=
  try_finally (for_each items fill_entry) self_close.

End Fill.

(** The body of the [for] loop of [read], threading the dictionary
    [selected]. *)
Definition read_row (el : elem) (selected : PyDict.dict bool)
    : M Page (PyDict.dict bool) :=
  item <- browser.text el ;;
  try_except
    (inp <- browser.element_input el ;;
     b <- browser.is_selected inp ;;
     ret (PyDict.set item b selected))
    is_NoSuchElementException
    (ret (PyDict.set item false selected)).

Fixpoint read_rows (els : list elem) (selected : PyDict.dict bool)
    : M Page (PyDict.dict bool) :=
  match els with
  | [] => ret selected
  | el :: els' => selected' <- read_row el selected ;; read_rows els' selected'
  end.

(** [def read(self)] *)
Definition read : M Page (PyDict.dict bool) :=
  Dropdown.opened
    (els <- browser.elements ITEMS_LOCATOR ;;
     read_rows els PyDict.empty).

(** [[self.browser.text(el) for el in els]] *)
Fixpoint texts (els : list elem) : M Page (list string) :=
  match els with
  | [] => ret []
  | el :: els' => t <- browser.text el ;; ts <- texts els' ;; ret (t :: ts)
  end.

(** [def _get_items(self, close=False)] *)
Definition _get_items (close : bool) : M Page (list string) :=
  Dropdown.open ;;
  els <- browser.elements ITEMS_LOCATOR ;;
  result <- texts els ;;
  (if close then Dropdown.close else ret ()) ;;
  ret result.

(** [@property def items(self)] *)
Definition items : M Page (list string) := _get_items true.

End BaseCheckboxSelect.

(** ** class CheckboxSelect(BaseCheckboxSelect, Dropdown) *)
Module CheckboxSelect.

Definition items : M Page (list string) := BaseCheckboxSelect.items.

(** [BaseSelect.item_element], whose [super()] is [Dropdown] and whose
    [self.ITEM_LOCATOR] and [self.items] are those of
    [BaseCheckboxSelect]. *)
Definition item_element : string → bool → M Page elem :=
  BaseSelect.item_element
    (Dropdown.item_element BaseCheckboxSelect.ITEM_LOCATOR) items.

Definition item_select : items_arg → bool → M Page unit :=
  BaseCheckboxSelect.item_select item_element.

Definition item_deselect : items_arg → bool → M Page unit :=
  BaseCheckboxSelect.item_deselect item_element.

Definition item_enabled : string → bool → M Page bool :=
  BaseCheckboxSelect.item_enabled.

Definition fill : PyDict.dict bool → M Page unit :=
  BaseCheckboxSelect.fill item_select item_deselect Dropdown.close.

Definition read : M Page (PyDict.dict bool) := BaseCheckboxSelect.read.

End CheckboxSelect.

(** A small checkbox menu and a small single select to evaluate on. *)
Definition checkbox_row (label : string) (checked : bool) : Row :=
  mkRow label ["pf-v5-c-menu__list-item"] (Some checked).

Definition demo_checkbox : Page :=
  mkPage [checkbox_row "a" false; checkbox_row "b" true; checkbox_row "c" false;
          checkbox_row "d" true]
         false "Filter" [].

Definition demo_select : Page :=
  mkPage [mkRow "Alpha" ["pf-v5-c-menu__list-item"] None;
          mkRow "Beta" ["pf-v5-c-menu__list-item"; "pf-m-disabled"] None;
          mkRow "Gamma" ["pf-v5-c-menu__list-item"] None]
         false "Alpha" [].

(** A checkbox menu in which two entries render the label [a]. *)
Definition duplicate_checkbox : Page :=
  mkPage [checkbox_row "a" false; checkbox_row "b" true; checkbox_row "c" false;
          checkbox_row "a" false]
         false "Filter" [].

(** ** Views of the page used in the statements *)

(** Index of the first entry that satisfies [want]. *)
Fixpoint first_match (want : Row → bool) (rs : list Row) : option nat :=
  match rs with
  | [] => None
  | r :: rs' => if want r then Some 0 else S <$> first_match want rs'
  end.

(** The entry whose toggle control [ITEM_LOCATOR] of the checkbox select
    finds for [item]: the first one with that text that has an [input]. *)
Definition toggle_index (item : string) (rs : list Row) : option nat :=
  first_match (λ r, has_text item r && has_input r) rs.

(** The checked state of that toggle control. *)
Fixpoint toggle_state (item : string) (rs : list Row) : option bool :=
  match rs with
  | [] => None
  | r :: rs' =>
      if has_text item r && has_input r then row_input r
      else toggle_state item rs'
  end.

(** The entries after that toggle control has been brought to state [v]. *)
Fixpoint set_toggle (item : string) (v : bool) (rs : list Row) : list Row :=
  match rs with
  | [] => []
  | r :: rs' =>
      if has_text item r && has_input r
      then mkRow (row_text r) (row_classes r) (Some v) :: rs'
      else r :: set_toggle item v rs'
  end.

(** The page after the loop body of [item_select] ([v] true) or
    [item_deselect] ([v] false) has found the toggle control of [item] in
    state [b]. *)
Definition toggled (item : string) (i : nat) (b v : bool) (p : Page) : Page :=
  mkPage (set_toggle item v (rows p)) true (button_text p)
         (clicks p ++ if xorb b v then [Input i] else []).

(** Whether an entry holds a selected toggle control; an entry without one
    counts as not selected. *)
Definition checked (r : Row) : bool :=
  match row_input r with Some b => b | None => false end.

(** The value of the last entry with text [item]. *)
Fixpoint last_value (item : string) (rs : list Row) : option bool :=
  match rs with
  | [] => None
  | r :: rs' =>
      match last_value item rs' with
      | Some v => Some v
      | None => if has_text item r then Some (checked r) else None
      end
  end.

(** Exactly one entry of the page renders the label [L]. *)
Definition rendered_once (L : string) (p : Page) : Prop :=
  length (filter (λ r, row_text r = L) (rows p)) = 1.

(** The dictionary [read] builds from the entries. *)
Definition read_dict (rs : list Row) : PyDict.dict bool :=
  foldl (λ d r, PyDict.set (row_text r) (checked r) d) PyDict.empty rs.

(** The entries after the toggle controls named by a mapping have been
    brought to the states it asks for, in its order. *)
Definition apply_fill (m : PyDict.dict bool) (rs : list Row) : list Row :=
  foldl (λ rs entry, set_toggle entry.1 entry.2 rs) rs m.

(** The labels in order of first appearance. *)
Fixpoint first_occurrences (l : list string) : list string :=
  match l with
  | [] => []
  | x :: l' => x :: filter (λ y, y ≠ x) (first_occurrences l')
  end.

(** The message of the [SelectItemNotFound] that [BaseSelect.item_element]
    raises. *)
Definition not_found_message (item : string) (available : list string) : message :=
  Format TplItemNotFoundIn [ArgRepr item; ArgSelf; ArgList available].

(** The labels of the entries that do not carry the disabled marker. *)
Definition enabled_labels (p : Page) : list string :=
  row_text <$> filter (λ r, Dropdown.is_disabled r = false) (rows p).

(** *** The calls [fill] makes on the widget

    [fill] touches the page only through [self.item_select],
    [self.item_deselect] and [self.close].  Run on a widget that does nothing
    but record the calls made on it, it shows which calls it makes itself;
    [outcome] decides, from the call and the calls before it, whether the
    call raises. *)
Inductive call : Type :=
  | CallSelect (items : items_arg) (close : bool)
  | CallDeselect (items : items_arg) (close : bool)
  | CallClose.

Global Instance items_arg_eq_dec : EqDecision items_arg.
Proof. solve_decision. Defined.

Global Instance call_eq_dec : EqDecision call.
Proof. solve_decision. Defined.

Section Recorder.

Variable outcome : call → list call → option exn.

Definition record (c : call) : M (list call) unit :=
  λ log, (match outcome c log with Some e => Raise e | None => Ok () end,
          log ++ [c]).

Definition recorded_fill (items : PyDict.dict bool) : M (list call) unit :=
  BaseCheckboxSelect.fill
    (λ its close, record (CallSelect its close))
    (λ its close, record (CallDeselect its close))
    (record CallClose)
    items.

End Recorder.

(** The call [fill] makes for one entry of the mapping. *)
Definition entry_call (entry : string * bool) : call :=
  if entry.2 then CallSelect (Single entry.1) false
  else CallDeselect (Single entry.1) false.

Definition count_close (log : list call) : nat :=
  length (filter (λ c, c = CallClose) log).

(** What the loop bodies of [item_select] ([v] true) and [item_deselect]
    ([v] false) of the checkbox select do for one item. *)
Definition toggles_to (v : bool) (body : string → M Page unit) : Prop :=
  ∀ item p,
    match toggle_index item (rows p) with
    | Some i =>
        ∃ b, toggle_state item (rows p) = Some b
             ∧ body item p = (Ok (), toggled item i b v p)
    | None =>
        body item p =
          (Raise (SelectItemNotFound (not_found_message item (labels p))),
           set_open false p)
    end.

(** * Properties *)

(** ** The monad *)

Lemma for_each_ext {W A} (f g : A → M W unit) (xs : list A) (w : W) :
  (∀ x w', f x w' = g x w') → for_each xs f w = for_each xs g w.
Proof.
  intros Hfg. revert w.
  induction xs as [|x xs IH]; intros w; [done|].
  cbn. unfold bind. rewrite Hfg.
  destruct (g x w) as [[[]|e] w1]; [apply IH|done].
Qed.

Lemma for_each_cons {W A} (f : A → M W unit) x xs w :
  for_each (x :: xs) f w =
    match f x w with
    | (Ok _, w1) => for_each xs f w1
    | (Raise e, w1) => (Raise e, w1)
    end.
Proof. reflexivity. Qed.

(** ** BaseSelect *)

(** C9.  [BaseSelect.read] returns the visible text of the trigger button
    and leaves the page as it was: the menu keeps its state, open or closed,
    and nothing is clicked. *)
Theorem read_returns_button_text (p : Page) :
  BaseSelect.read p = (Ok (button_text p), p)
  ∧ is_open (BaseSelect.read p).2 = is_open p
  ∧ clicks (BaseSelect.read p).2 = clicks p.
Proof. done. Qed.

Section BaseSelectErrors.

Context {W : Type}.
Variable super_item_element : string → bool → M W elem.
Variable super_item_select : string → M W unit.
Variable self_items : M W (list string).
Variable self_enabled_items : M W (list string).

(** An instance of [DropdownItemNotFound] raised by the base lookup is
    replaced by a [SelectItemNotFound] whose message is formatted with the
    value of [self.items] read at that moment. *)
Lemma item_element_translates (item : string) (close : bool)
    (w w1 w2 : W) (e : exn) (its : list string) :
  super_item_element item close w = (Raise e, w1) →
  is_DropdownItemNotFound e = true →
  self_items w1 = (Ok its, w2) →
  BaseSelect.item_element super_item_element self_items item close w =
    (Raise (SelectItemNotFound
              (Format TplItemNotFoundIn [ArgRepr item; ArgSelf; ArgList its])),
     w2).
Proof.
  intros Hsuper He Hits.
  unfold BaseSelect.item_element, try_except, bind, raise.
  by rewrite Hsuper, He, Hits.
Qed.

(** An instance of [DropdownItemDisabled] raised by the base selection is
    replaced by a [SelectItemDisabled] whose message is formatted with the
    value of [self.enabled_items] read at that moment. *)
Lemma item_select_translates (item : string)
    (w w1 w2 : W) (e : exn) (its : list string) :
  super_item_select item w = (Raise e, w1) →
  is_DropdownItemDisabled e = true →
  self_enabled_items w1 = (Ok its, w2) →
  BaseSelect.item_select super_item_select self_enabled_items item w =
    (Raise (SelectItemDisabled
              (Format TplItemDisabled [ArgStr item; ArgSelf; ArgList its])),
     w2).
Proof.
  intros Hsuper He Hits.
  unfold BaseSelect.item_select, try_except, bind, raise.
  by rewrite Hsuper, He, Hits.
Qed.

(** A lookup that succeeds, or fails in another way, is passed on as it
    is. *)
Lemma item_element_found (item : string) (close : bool) (w w1 : W) (el : elem) :
  super_item_element item close w = (Ok el, w1) →
  BaseSelect.item_element super_item_element self_items item close w = (Ok el, w1).
Proof.
  intros Hsuper. unfold BaseSelect.item_element, try_except.
  by rewrite Hsuper.
Qed.

End BaseSelectErrors.

(** ** The browser on the page *)

Lemma matching_head (want : Row → bool) (mk : nat → elem) (i : nat) (rs : list Row) :
  head (matching want mk i rs) = (λ j, mk (i + j)) <$> first_match want rs.
Proof.
  revert i. induction rs as [|r rs IH]; intros i; [done|].
  cbn. destruct (want r); cbn.
  - by rewrite Nat.add_0_r.
  - rewrite IH. destruct (first_match want rs) as [j|]; cbn; [|done].
    by rewrite Nat.add_succ_r.
Qed.

Lemma element_first_match (want : Row → bool) (mk : nat → elem) (rs : list Row) :
  match first_match want rs with
  | Some j => ∃ tl, matching want mk 0 rs = mk j :: tl
  | None => matching want mk 0 rs = []
  end.
Proof.
  pose proof (matching_head want mk 0 rs) as H.
  destruct (first_match want rs) as [j|], (matching want mk 0 rs) as [|e tl];
    cbn in H; try done.
  injection H as ->. by exists tl.
Qed.

Lemma element_toggle (item : string) (p : Page) :
  is_open p = true →
  browser.element (ITEM_LOCATOR_INPUT item) p =
    match toggle_index item (rows p) with
    | Some i => (Ok (Input i), p)
    | None => (Raise NoSuchElementException, p)
    end.
Proof.
  intros Hopen. unfold browser.element, select_all, toggle_index. rewrite Hopen.
  pose proof (element_first_match (λ r, has_text item r && has_input r) Input (rows p)) as H.
  destruct (first_match _ (rows p)) as [j|].
  - destruct H as [tl ->]. done.
  - by rewrite H.
Qed.

Lemma element_entry (item : string) (p : Page) :
  is_open p = true →
  browser.element (ITEM_LOCATOR_BASE item) p =
    match first_match (has_text item) (rows p) with
    | Some i => (Ok (ListItem i), p)
    | None => (Raise NoSuchElementException, p)
    end.
Proof.
  intros Hopen. unfold browser.element, select_all. rewrite Hopen.
  pose proof (element_first_match (has_text item) ListItem (rows p)) as H.
  destruct (first_match _ (rows p)) as [j|].
  - destruct H as [tl ->]. done.
  - by rewrite H.
Qed.

Lemma first_match_lookup (want : Row → bool) (rs : list Row) (i : nat) :
  first_match want rs = Some i → ∃ r, rs !! i = Some r ∧ want r = true.
Proof.
  revert i. induction rs as [|r rs IH]; intros i; [done|]. cbn.
  destruct (want r) eqn:Hr.
  - intros [= <-]. by exists r.
  - destruct (first_match want rs) as [j|]; [|done].
    intros [= <-]. by apply IH.
Qed.

Lemma first_match_None (want : Row → bool) (rs : list Row) :
  first_match want rs = None ↔ ∀ r, r ∈ rs → want r = false.
Proof.
  induction rs as [|r rs IH]; cbn.
  - split; [|done]. intros _ r Hr. by apply elem_of_nil in Hr.
  - destruct (want r) eqn:Hr.
    + split; [done|]. intros H. specialize (H r (list_elem_of_here _ _)). congruence.
    + destruct (first_match want rs) as [j|]; cbn.
      * split; [done|]. intros H. exfalso.
        assert (Some j = None) as Hj; [|done].
        apply IH. intros r' Hr'. apply H. by apply list_elem_of_further.
      * split; [|done]. intros _ r' [->|Hr']%elem_of_cons; [done|].
        by apply IH.
Qed.

(** Reading the text of every entry yields the labels. *)
Lemma texts_entries (rs pre : list Row) (p : Page) :
  rows p = pre ++ rs →
  BaseCheckboxSelect.texts (matching (λ _, true) ListItem (length pre) rs) p =
    (Ok (row_text <$> rs), p).
Proof.
  revert pre. induction rs as [|r rs IH]; intros pre Hrows; [done|].
  cbn. unfold bind, browser.text, ret. cbn.
  specialize (IH (pre ++ [r])).
  rewrite length_app in IH. cbn in IH. rewrite Nat.add_1_r in IH.
  rewrite IH by (by rewrite Hrows, <- app_assoc).
  rewrite Hrows, lookup_app_r, Nat.sub_diag by lia. done.
Qed.

(** [_get_items] and [items] of the checkbox select yield the labels of the
    entries; [items] leaves the menu closed. *)
Lemma get_items_labels (close : bool) (p : Page) :
  BaseCheckboxSelect._get_items close p =
    (Ok (labels p), if close then set_open false p else set_open true p).
Proof.
  unfold BaseCheckboxSelect._get_items, bind, Dropdown.open, browser.elements.
  cbn. pose proof (texts_entries (rows p) [] (set_open true p) eq_refl) as H.
  cbn in H. rewrite H. unfold labels. by destruct close.
Qed.

Lemma items_labels (p : Page) :
  CheckboxSelect.items p = (Ok (labels p), set_open false p).
Proof. apply (get_items_labels true). Qed.

Lemma absent_no_entry (item : string) (rs : list Row) :
  item ∉ row_text <$> rs → first_match (has_text item) rs = None.
Proof.
  intros Habs. apply first_match_None. intros r Hr.
  unfold has_text. apply bool_decide_eq_false. intros <-.
  apply Habs. by apply list_elem_of_fmap_2.
Qed.

Lemma absent_no_toggle (item : string) (rs : list Row) :
  item ∉ row_text <$> rs → toggle_index item rs = None.
Proof.
  intros Habs. apply first_match_None. intros r Hr.
  apply andb_false_intro1, bool_decide_eq_false. intros <-.
  apply Habs. by apply list_elem_of_fmap_2.
Qed.

Lemma zzz_not_rendered : "zzz" ∉ labels demo_checkbox.
Proof. compute_done. Defined.

(** ** BaseCheckboxSelect.item_enabled *)

Lemma item_enabled_eval (item : string) (close : bool) (p : Page) :
  BaseCheckboxSelect.item_enabled item close p =
    match first_match (has_text item) (rows p) with
    | Some i =>
        (Ok (negb (bool_decide
                     ("pf-m-disabled" ∈
                        match rows p !! i with
                        | Some r => row_classes r
                        | None => []
                        end))),
         set_open (negb close) p)
    | None =>
        (Raise (SelectItemNotFound (Format TplItemNotFound [ArgRepr item])),
         set_open true p)
    end.
Proof.
  unfold BaseCheckboxSelect.item_enabled, try_except, bind, Dropdown.open.
  rewrite element_entry by done. cbn.
  destruct (first_match (has_text item) (rows p)) as [i|]; cbn; [|done].
  by destruct close.
Qed.

(** C1.  For an item that is not rendered, [item_enabled(item, close=True)]
    raises [SelectItemNotFound] and returns with the menu open: the
    [self.close()] of the method is on the normal path only.  For an item
    that is rendered it returns with the menu closed. *)
Theorem item_enabled_absent_leaves_menu_open (item : string) (p : Page) :
  item ∉ labels p →
  BaseCheckboxSelect.item_enabled item true p =
    (Raise (SelectItemNotFound (Format TplItemNotFound [ArgRepr item])),
     set_open true p)
  ∧ is_open (BaseCheckboxSelect.item_enabled item true p).2 = true.
Proof.
  intros Habs. rewrite item_enabled_eval, absent_no_entry by done. done.
Qed.

Lemma item_enabled_absent_leaves_menu_open_witness :
  ("zzz" ∉ labels demo_checkbox)
  ∧ BaseCheckboxSelect.item_enabled "zzz" true demo_checkbox =
      (Raise (SelectItemNotFound (Format TplItemNotFound [ArgRepr "zzz"])),
       set_open true demo_checkbox)
  ∧ is_open (BaseCheckboxSelect.item_enabled "zzz" true demo_checkbox).2 = true.
Proof.
  split; [exact zzz_not_rendered|].
  exact (item_enabled_absent_leaves_menu_open "zzz" demo_checkbox zzz_not_rendered).
Defined.

(** On the normal path the menu is closed when [close] is true. *)
Lemma item_enabled_present_closes (item : string) (p : Page) :
  item ∈ labels p →
  ∃ b, BaseCheckboxSelect.item_enabled item true p = (Ok b, set_open false p).
Proof.
  intros Hin. rewrite item_enabled_eval.
  destruct (first_match (has_text item) (rows p)) as [i|] eqn:Hi; [by eexists|].
  exfalso. apply list_elem_of_fmap in Hin as (r & -> & Hr).
  pose proof (proj1 (first_match_None _ _) Hi r Hr) as H.
  unfold has_text in H. by apply bool_decide_eq_false in H.
Qed.

(** ** The lookup of the checkbox select *)

Lemma dropdown_item_element_toggle (item : string) (p : Page) :
  Dropdown.item_element ITEM_LOCATOR_INPUT item false p =
    match toggle_index item (rows p) with
    | Some i => (Ok (Input i), set_open true p)
    | None =>
        (Raise (DropdownItemNotFound (Format TplBase [ArgRepr item])),
         set_open true p)
    end.
Proof.
  unfold Dropdown.item_element, try_except, bind, Dropdown.open.
  rewrite element_toggle by done. cbn [rows set_open].
  by destruct (toggle_index item (rows p)).
Qed.

Lemma checkbox_item_element (item : string) (p : Page) :
  CheckboxSelect.item_element item false p =
    match toggle_index item (rows p) with
    | Some i => (Ok (Input i), set_open true p)
    | None =>
        (Raise (SelectItemNotFound (not_found_message item (labels p))),
         set_open false p)
    end.
Proof.
  unfold CheckboxSelect.item_element, BaseCheckboxSelect.ITEM_LOCATOR.
  unfold BaseSelect.item_element, try_except.
  rewrite dropdown_item_element_toggle.
  destruct (toggle_index item (rows p)); [done|].
  cbn [is_DropdownItemNotFound]. unfold bind. by rewrite items_labels.
Qed.

(** ** Toggle controls *)

Lemma toggle_index_Some (item : string) (rs : list Row) (i : nat) :
  toggle_index item rs = Some i →
  ∃ r b, rs !! i = Some r ∧ row_input r = Some b
         ∧ toggle_state item rs = Some b
         ∧ alter browser.toggle i rs = set_toggle item (negb b) rs
         ∧ set_toggle item b rs = rs.
Proof.
  unfold toggle_index. revert i.
  induction rs as [|r rs IH]; intros i; [done|]. cbn.
  destruct (has_text item r && has_input r) eqn:Hr.
  - intros [= <-]. apply andb_prop in Hr as [_ Hin]. unfold has_input in Hin.
    destruct r as [t cs [b|]]; [|done]. exists (mkRow t cs (Some b)), b. done.
  - destruct (first_match _ rs) as [j|] eqn:Hj; [|done]. intros [= <-].
    destruct (IH j eq_refl) as (r' & b & Hl & Hb & Hst & Halt & Hid).
    exists r', b. cbn. by rewrite Halt, Hid.
Qed.

Lemma toggle_index_None (item : string) (rs : list Row) :
  toggle_index item rs = None → toggle_state item rs = None.
Proof.
  unfold toggle_index. induction rs as [|r rs IH]; [done|]. cbn.
  destruct (has_text item r && has_input r); [done|].
  destruct (first_match _ rs); [done|]. intros _. by apply IH.
Qed.

Lemma toggle_state_Some (item : string) (rs : list Row) (b : bool) :
  toggle_state item rs = Some b → ∃ i, toggle_index item rs = Some i.
Proof.
  intros Hb. destruct (toggle_index item rs) as [i|] eqn:Hi; [by exists i|].
  apply toggle_index_None in Hi. congruence.
Qed.

Lemma set_toggle_labels (item : string) (v : bool) (rs : list Row) :
  row_text <$> set_toggle item v rs = row_text <$> rs.
Proof.
  induction rs as [|r rs IH]; [done|]. cbn.
  destruct (has_text item r && has_input r); cbn; by rewrite ?IH.
Qed.

Lemma toggle_state_set_toggle (item : string) (v : bool) (rs : list Row) :
  toggle_state item (set_toggle item v rs) = (λ _, v) <$> toggle_state item rs.
Proof.
  induction rs as [|r rs IH]; [done|]. cbn.
  destruct (has_text item r && has_input r) eqn:Hr; cbn.
  - apply andb_prop in Hr as [Ht Hin]. unfold has_text, has_input in *. cbn.
    rewrite Ht. cbn. by destruct (row_input r).
  - by rewrite Hr.
Qed.

Lemma toggle_state_set_toggle_ne (item item' : string) (v : bool) (rs : list Row) :
  item ≠ item' →
  toggle_state item' (set_toggle item v rs) = toggle_state item' rs.
Proof.
  intros Hne. induction rs as [|r rs IH]; [done|]. cbn.
  destruct (has_text item r && has_input r) eqn:Hr; cbn.
  - apply andb_prop in Hr as [Ht Hin]. unfold has_text, has_input in *. cbn.
    apply bool_decide_eq_true in Ht.
    rewrite !bool_decide_eq_false_2 by congruence. done.
  - by rewrite IH.
Qed.

Lemma click_unless (item : string) (i : nat) (b v : bool) (p : Page) :
  toggle_index item (rows p) = Some i →
  toggle_state item (rows p) = Some b →
  (if xorb b v then browser.click (Input i) else ret ()) (set_open true p) =
    (Ok (), toggled item i b v p).
Proof.
  intros Hi Hb. unfold toggled.
  destruct (toggle_index_Some _ _ _ Hi) as (r & b' & Hl & Hin & Hst & Halt & Hid).
  assert (b' = b) as -> by congruence.
  destruct b, v; cbn; unfold ret, browser.click, browser.after_click, set_open; cbn.
  - by rewrite Hid, app_nil_r.
  - by rewrite Halt.
  - by rewrite Halt.
  - by rewrite Hid, app_nil_r.
Qed.

Lemma selected_of_toggle (item : string) (i : nat) (b : bool) (p : Page) :
  toggle_index item (rows p) = Some i →
  toggle_state item (rows p) = Some b →
  browser.selected_of (Input i) (set_open true p) = b.
Proof.
  intros Hi Hb.
  destruct (toggle_index_Some _ _ _ Hi) as (r & b' & Hl & Hin & Hst & _).
  cbn. rewrite Hl, Hin. congruence.
Qed.


(** ** The loops of the checkbox select *)

Lemma select_one_toggles :
  toggles_to true (BaseCheckboxSelect.select_one CheckboxSelect.item_element).
Proof.
  intros item p. unfold BaseCheckboxSelect.select_one, bind.
  rewrite checkbox_item_element.
  destruct (toggle_index item (rows p)) as [i|] eqn:Hi; [|done].
  destruct (toggle_index_Some _ _ _ Hi) as (r & b & _ & _ & Hb & _).
  exists b. split; [done|]. unfold browser.is_selected.
  rewrite (selected_of_toggle item i b) by done.
  rewrite <- (click_unless item i b true p) by done. by destruct b.
Qed.

Lemma deselect_one_toggles :
  toggles_to false (BaseCheckboxSelect.deselect_one CheckboxSelect.item_element).
Proof.
  intros item p. unfold BaseCheckboxSelect.deselect_one, bind.
  rewrite checkbox_item_element.
  destruct (toggle_index item (rows p)) as [i|] eqn:Hi; [|done].
  destruct (toggle_index_Some _ _ _ Hi) as (r & b & _ & _ & Hb & _).
  exists b. split; [done|]. unfold browser.is_selected.
  rewrite (selected_of_toggle item i b) by done.
  rewrite <- (click_unless item i b false p) by done. by destruct b.
Qed.

Lemma toggled_labels (item : string) (i : nat) (b v : bool) (p : Page) :
  labels (toggled item i b v p) = labels p.
Proof. apply set_toggle_labels. Qed.

Section Loops.

Variable v : bool.
Variable body : string → M Page unit.
Hypothesis Hbody : toggles_to v body.

(** A label that is not rendered stops the loop with a
    [SelectItemNotFound] that lists the labels of the page. *)
Lemma loop_not_found (items : list string) (L : string) (p : Page) :
  L ∈ items → L ∉ labels p →
  ∃ L' p', L' ∈ items
    ∧ toggle_state L' (rows p') = None
    ∧ is_open p' = false
    ∧ for_each items body p =
        (Raise (SelectItemNotFound (not_found_message L' (labels p))), p').
Proof using Hbody.
  intros HL Habs. revert p Habs.
  induction items as [|x xs IH]; intros p Habs; [by apply elem_of_nil in HL|].
  rewrite for_each_cons. pose proof (Hbody x p) as Hx.
  destruct (toggle_index x (rows p)) as [i|] eqn:Hi.
  - destruct Hx as (b & Hb & ->).
    assert (L ∈ xs) as HL'.
    { apply elem_of_cons in HL as [->|]; [|done].
      apply absent_no_toggle in Habs. unfold labels in *. congruence. }
    destruct (IH HL' (toggled x i b v p)) as (L' & p' & HL'' & Hst & Hop & Hrun).
    { by rewrite toggled_labels. }
    exists L', p'. rewrite Hrun, toggled_labels.
    split_and!; [by apply list_elem_of_further|done..].
  - rewrite Hx. exists x, (set_open false p).
    split_and!; [apply list_elem_of_here| |done..].
    by apply toggle_index_None.
Qed.

(** When the loop completes, every toggle control it was asked for is in
    state [v]. *)
Lemma loop_completes (items : list string) (p p' : Page) :
  for_each items body p = (Ok (), p') →
  labels p' = labels p
  ∧ ∀ L, L ∈ items → toggle_state L (rows p') = Some v.
Proof using Hbody.
  revert p. induction items as [|x xs IH]; intros p.
  - intros [= <-]. split; [done|]. intros L HL. by apply elem_of_nil in HL.
  - rewrite for_each_cons. pose proof (Hbody x p) as Hx.
    destruct (toggle_index x (rows p)) as [i|] eqn:Hi; [|by rewrite Hx].
    destruct Hx as (b & Hb & ->). intros Hrun.
    destruct (IH _ Hrun) as [Hlab Hall]. rewrite toggled_labels in Hlab.
    split; [done|]. intros L [->|HL]%elem_of_cons; [|by apply Hall].
    (* the later items leave the control of [x] in state [v] *)
    clear IH Hall Hlab.
    assert (toggle_state x (rows (toggled x i b v p)) = Some v) as Hst.
    { cbn. by rewrite toggle_state_set_toggle, Hb. }
    revert Hrun Hst. generalize (toggled x i b v p). clear Hi Hb.
    induction xs as [|y ys IHys]; intros q.
    + by intros [= <-].
    + rewrite for_each_cons. pose proof (Hbody y q) as Hy.
      destruct (toggle_index y (rows q)) as [j|]; [|by rewrite Hy].
      destruct Hy as (c & Hc & ->). intros Hrun Hst.
      apply (IHys _ Hrun). cbn.
      destruct (decide (y = x)) as [->|Hne].
      * by rewrite toggle_state_set_toggle, Hst.
      * by rewrite toggle_state_set_toggle_ne.
Qed.

(** When every toggle control asked for is in state [v] already, the loop
    clicks nothing and changes no entry. *)
Lemma loop_settled (items : list string) (p : Page) :
  (∀ L, L ∈ items → toggle_state L (rows p) = Some v) →
  ∃ p', for_each items body p = (Ok (), p')
    ∧ rows p' = rows p ∧ clicks p' = clicks p
    ∧ button_text p' = button_text p
    ∧ is_open p' = (if items is [] then is_open p else true).
Proof using Hbody.
  revert p. induction items as [|x xs IH]; intros p Hall; [by exists p|].
  rewrite for_each_cons. pose proof (Hbody x p) as Hx.
  pose proof (Hall x (list_elem_of_here _ _)) as Hst.
  destruct (toggle_state_Some _ _ _ Hst) as [i Hi]. rewrite Hi in Hx.
  destruct Hx as (b & Hb & ->). assert (b = v) as -> by congruence.
  assert (rows (toggled x i v v p) = rows p) as Hrows.
  { destruct (toggle_index_Some _ _ _ Hi) as (r & b' & _ & _ & Hb' & _ & Hid).
    assert (b' = v) as -> by congruence. exact Hid. }
  assert (clicks (toggled x i v v p) = clicks p) as Hclicks.
  { cbn. rewrite xorb_nilpotent. apply app_nil_r. }
  destruct (IH (toggled x i v v p)) as (p' & Hrun & Hr & Hc & Hbt & Hop).
  { intros L HL. rewrite Hrows. apply Hall. by apply list_elem_of_further. }
  exists p'. rewrite Hrun, Hr, Hc, Hbt, Hrows, Hclicks.
  split_and!; try done. rewrite Hop. by destruct xs.
Qed.

End Loops.

(** ** BaseCheckboxSelect.item_select and item_deselect *)

Section CloseGuarantee.

Variable self_item_element : string → bool → M Page elem.

Let select_loop (items : items_arg) : M Page unit :=
  for_each (BaseCheckboxSelect.as_list items)
           (BaseCheckboxSelect.select_one self_item_element).

Let deselect_loop (items : items_arg) : M Page unit :=
  for_each (BaseCheckboxSelect.as_list items)
           (BaseCheckboxSelect.deselect_one self_item_element).

Lemma item_select_eval (items : items_arg) (close : bool) (p : Page) :
  BaseCheckboxSelect.item_select self_item_element items close p =
    ((select_loop items p).1,
     if close then set_open false (select_loop items p).2
     else (select_loop items p).2).
Proof.
  unfold BaseCheckboxSelect.item_select, try_finally, select_loop.
  destruct (for_each _ _ p) as [r p1]. by destruct close.
Qed.

Lemma item_deselect_eval (items : items_arg) (close : bool) (p : Page) :
  BaseCheckboxSelect.item_deselect self_item_element items close p =
    ((deselect_loop items p).1,
     if close then set_open false (deselect_loop items p).2
     else (deselect_loop items p).2).
Proof.
  unfold BaseCheckboxSelect.item_deselect, try_finally, deselect_loop.
  destruct (for_each _ _ p) as [r p1]. by destruct close.
Qed.

(** C2.  Whatever the lookup [self.item_element] does: when the loop of
    [item_select(items, close=True)] or [item_deselect(items, close=True)]
    is left by an exception, the call raises that same exception and the
    menu is closed; the menu is closed on every return of the call. *)
Theorem item_select_closes_on_error (items : items_arg) (p : Page) :
  (∀ e p1,
     for_each (BaseCheckboxSelect.as_list items)
              (BaseCheckboxSelect.select_one self_item_element) p = (Raise e, p1) →
     BaseCheckboxSelect.item_select self_item_element items true p =
       (Raise e, set_open false p1))
  ∧ (∀ e p1,
       for_each (BaseCheckboxSelect.as_list items)
                (BaseCheckboxSelect.deselect_one self_item_element) p = (Raise e, p1) →
       BaseCheckboxSelect.item_deselect self_item_element items true p =
         (Raise e, set_open false p1))
  ∧ is_open (BaseCheckboxSelect.item_select self_item_element items true p).2 = false
  ∧ is_open (BaseCheckboxSelect.item_deselect self_item_element items true p).2 = false.
Proof.
  rewrite item_select_eval, item_deselect_eval. unfold select_loop, deselect_loop.
  split_and!; try done.
  - by intros e p1 ->.
  - by intros e p1 ->.
Qed.

End CloseGuarantee.

(** The loop of [item_select(["a", "zzz", "c"])] on the demo menu is left at
    ["zzz"], after the toggle control of ["a"] has been clicked: the call
    raises the [SelectItemNotFound] of the lookup and the menu is closed. *)
Lemma item_select_closes_on_error_witness :
  BaseCheckboxSelect.item_select CheckboxSelect.item_element
    (Many ["a"; "zzz"; "c"]) true demo_checkbox =
    (Raise (SelectItemNotFound (not_found_message "zzz" ["a"; "b"; "c"; "d"])),
     mkPage [checkbox_row "a" true; checkbox_row "b" true;
             checkbox_row "c" false; checkbox_row "d" true]
            false "Filter" [Input 0]).
Proof.
  exact (proj1 (item_select_closes_on_error CheckboxSelect.item_element
                  (Many ["a"; "zzz"; "c"]) demo_checkbox)
               _ _ eq_refl).
Defined.

(** C10.  For a label that is not rendered, [item_select] and
    [item_deselect] of the checkbox select raise the [SelectItemNotFound] of
    [BaseSelect.item_element], whose message lists the labels of the page;
    the same holds for a collection that contains such a label, the message
    naming the first label whose lookup fails. *)
Theorem checkbox_item_select_not_found (L : string) (close : bool) (p : Page) :
  L ∉ labels p →
  CheckboxSelect.item_select (Single L) close p =
    (Raise (SelectItemNotFound (not_found_message L (labels p))), set_open false p)
  ∧ CheckboxSelect.item_deselect (Single L) close p =
      (Raise (SelectItemNotFound (not_found_message L (labels p))), set_open false p)
  ∧ (∀ items, L ∈ items →
       ∃ L' p', L' ∈ items
         ∧ CheckboxSelect.item_select (Many items) close p =
             (Raise (SelectItemNotFound (not_found_message L' (labels p))), p'))
  ∧ (∀ items, L ∈ items →
       ∃ L' p', L' ∈ items
         ∧ CheckboxSelect.item_deselect (Many items) close p =
             (Raise (SelectItemNotFound (not_found_message L' (labels p))), p')).
Proof.
  intros Habs. pose proof (absent_no_toggle _ _ Habs) as Hi.
  unfold CheckboxSelect.item_select, CheckboxSelect.item_deselect.
  split_and!.
  - rewrite item_select_eval. cbn [BaseCheckboxSelect.as_list].
    rewrite for_each_cons. pose proof (select_one_toggles L p) as H.
    rewrite Hi in H. rewrite H. by destruct close.
  - rewrite item_deselect_eval. cbn [BaseCheckboxSelect.as_list].
    rewrite for_each_cons. pose proof (deselect_one_toggles L p) as H.
    rewrite Hi in H. rewrite H. by destruct close.
  - intros items HL. rewrite item_select_eval. cbn [BaseCheckboxSelect.as_list].
    destruct (loop_not_found true _ select_one_toggles items L p HL Habs)
      as (L' & p' & HL' & _ & _ & ->).
    exists L'. eexists. split; [done|]. reflexivity.
  - intros items HL. rewrite item_deselect_eval. cbn [BaseCheckboxSelect.as_list].
    destruct (loop_not_found false _ deselect_one_toggles items L p HL Habs)
      as (L' & p' & HL' & _ & _ & ->).
    exists L'. eexists. split; [done|]. reflexivity.
Qed.

Lemma checkbox_item_select_not_found_witness :
  ("zzz" ∉ labels demo_checkbox)
  ∧ CheckboxSelect.item_select (Single "zzz") true demo_checkbox =
      (Raise (SelectItemNotFound (not_found_message "zzz" ["a"; "b"; "c"; "d"])),
       demo_checkbox).
Proof.
  split; [exact zzz_not_rendered|].
  exact (proj1 (checkbox_item_select_not_found "zzz" true demo_checkbox
                  zzz_not_rendered)).
Defined.

(** C3.  With the toggle control of [L] in state [b]: [item_select([L])]
    clicks it exactly when [b] is false and leaves it selected, and a second
    [item_select([L])] clicks nothing and changes no entry;
    [item_deselect([L])] clicks it exactly when [b] is true, so on an
    unselected [L] it clicks nothing and changes no entry. *)
Theorem checkbox_select_idempotent (L : string) (b close close' : bool) (p : Page) :
  toggle_state L (rows p) = Some b →
  ∃ i p1 p2 q1,
    toggle_index L (rows p) = Some i
    ∧ CheckboxSelect.item_select (Many [L]) close p = (Ok (), p1)
    ∧ clicks p1 = clicks p ++ (if b then [] else [Input i])
    ∧ toggle_state L (rows p1) = Some true
    ∧ CheckboxSelect.item_select (Many [L]) close' p1 = (Ok (), p2)
    ∧ clicks p2 = clicks p1
    ∧ rows p2 = rows p1
    ∧ CheckboxSelect.item_deselect (Many [L]) close p = (Ok (), q1)
    ∧ clicks q1 = clicks p ++ (if b then [Input i] else [])
    ∧ toggle_state L (rows q1) = Some false
    ∧ (b = false → rows q1 = rows p).
Proof.
  intros Hb. destruct (toggle_state_Some _ _ _ Hb) as [i Hi].
  pose proof (select_one_toggles L p) as Hsel.
  pose proof (deselect_one_toggles L p) as Hdes.
  rewrite Hi in Hsel, Hdes.
  destruct Hsel as (b1 & Hb1 & Hsel), Hdes as (b2 & Hb2 & Hdes).
  assert (b1 = b) as -> by congruence. assert (b2 = b) as -> by congruence.
  set (p1 := if close then set_open false (toggled L i b true p)
             else toggled L i b true p).
  set (q1 := if close then set_open false (toggled L i b false p)
             else toggled L i b false p).
  assert (rows p1 = set_toggle L true (rows p)) as Hrows1 by by destruct close.
  assert (toggle_state L (rows p1) = Some true) as Hst1.
  { by rewrite Hrows1, toggle_state_set_toggle, Hb. }
  destruct (loop_settled true _ select_one_toggles [L] p1) as (p2' & Hrun & Hr & Hc & _).
  { by intros L' ->%list_elem_of_singleton. }
  exists i, p1, (if close' then set_open false p2' else p2'), q1.
  unfold CheckboxSelect.item_select, CheckboxSelect.item_deselect.
  rewrite !item_select_eval, item_deselect_eval. cbn [BaseCheckboxSelect.as_list].
  rewrite Hrun, !for_each_cons, Hsel, Hdes. cbn [for_each ret fst snd].
  split_and!; try done.
  - subst p1. destruct close, b; done.
  - by destruct close'.
  - by destruct close'.
  - subst q1. destruct close, b; done.
  - transitivity (toggle_state L (set_toggle L false (rows p)));
      [subst q1; by destruct close|].
    by rewrite toggle_state_set_toggle, Hb.
  - intros ->.
    destruct (toggle_index_Some _ _ _ Hi) as (r & b' & _ & _ & Hb' & _ & Hid).
    assert (b' = false) as -> by congruence. subst q1. by destruct close.
Qed.

Lemma checkbox_select_idempotent_witness :
  ∃ i p1 p2 q1,
    toggle_index "a" (rows demo_checkbox) = Some i
    ∧ CheckboxSelect.item_select (Many ["a"]) true demo_checkbox = (Ok (), p1)
    ∧ clicks p1 = clicks demo_checkbox ++ [Input i]
    ∧ toggle_state "a" (rows p1) = Some true
    ∧ CheckboxSelect.item_select (Many ["a"]) true p1 = (Ok (), p2)
    ∧ clicks p2 = clicks p1
    ∧ rows p2 = rows p1
    ∧ CheckboxSelect.item_deselect (Many ["a"]) true demo_checkbox = (Ok (), q1)
    ∧ clicks q1 = clicks demo_checkbox ++ []
    ∧ toggle_state "a" (rows q1) = Some false
    ∧ (false = false → rows q1 = rows demo_checkbox).
Proof.
  exact (checkbox_select_idempotent "a" false true true demo_checkbox eq_refl).
Defined.

(** X5.  The same for a collection of labels: once [item_select(items)] has
    returned, every one of them is selected, and a second call clicks nothing
    and changes no entry. *)
Lemma item_select_twice (items : list string) (close close' : bool) (p p1 : Page) :
  CheckboxSelect.item_select (Many items) close p = (Ok (), p1) →
  (∀ L, L ∈ items → toggle_state L (rows p1) = Some true)
  ∧ ∃ p2, CheckboxSelect.item_select (Many items) close' p1 = (Ok (), p2)
          ∧ clicks p2 = clicks p1 ∧ rows p2 = rows p1.
Proof.
  unfold CheckboxSelect.item_select. rewrite !item_select_eval.
  cbn [BaseCheckboxSelect.as_list].
  destruct (for_each items _ p) as [[[]|e] q] eqn:Hrun; [|done].
  cbn [fst snd]. intros [= <-].
  destruct (loop_completes true _ select_one_toggles items p q Hrun) as [_ Hall].
  assert (∀ L, L ∈ items →
            toggle_state L (rows (if close then set_open false q else q)) = Some true)
    as Hall' by (by destruct close).
  split; [done|].
  destruct (loop_settled true _ select_one_toggles items _ Hall')
    as (p2 & -> & Hr & Hc & _).
  exists (if close' then set_open false p2 else p2). by destruct close'.
Qed.

(** ** Dictionaries *)

Lemma get_set_eq {V} (k : string) (v : V) (d : PyDict.dict V) :
  PyDict.get k (PyDict.set k v d) = Some v.
Proof.
  induction d as [|[k' v'] d IH]; cbn; [by rewrite decide_True|].
  destruct (decide (k' = k)) as [->|Hne]; cbn.
  - by rewrite decide_True.
  - by rewrite decide_False.
Qed.

Lemma get_set_ne {V} (k k' : string) (v : V) (d : PyDict.dict V) :
  k ≠ k' → PyDict.get k' (PyDict.set k v d) = PyDict.get k' d.
Proof.
  intros Hne. induction d as [|[k0 v0] d IH]; cbn; [by rewrite decide_False|].
  destruct (decide (k0 = k)) as [->|Hne0]; cbn.
  - by rewrite !decide_False.
  - by rewrite IH.
Qed.

Lemma keys_set {V} (k : string) (v : V) (d : PyDict.dict V) :
  PyDict.keys (PyDict.set k v d) =
    if decide (k ∈ PyDict.keys d) then PyDict.keys d else PyDict.keys d ++ [k].
Proof.
  unfold PyDict.keys. induction d as [|[k' v'] d IH]; cbn.
  - rewrite decide_False; [done|]. apply not_elem_of_nil.
  - destruct (decide (k' = k)) as [->|Hne]; cbn.
    + rewrite decide_True; [done|]. apply list_elem_of_here.
    + rewrite IH. destruct (decide (k ∈ d.*1)) as [Hin|Hnin].
      * rewrite decide_True; [done|]. by apply list_elem_of_further.
      * rewrite decide_False; [done|].
        intros [->|?]%elem_of_cons; done.
Qed.

(** ** BaseCheckboxSelect.read *)

Lemma read_row_eval (i : nat) (r : Row) (d : PyDict.dict bool) (p : Page) :
  rows p !! i = Some r →
  BaseCheckboxSelect.read_row (ListItem i) d p =
    (Ok (PyDict.set (row_text r) (checked r) d), p).
Proof.
  intros Hi.
  unfold BaseCheckboxSelect.read_row, bind, browser.text, try_except,
    browser.element_input, browser.is_selected, ret, checked, has_input.
  cbn. rewrite Hi. destruct (row_input r) eqn:Hin; [|done].
  unfold browser.selected_of. by rewrite Hi, Hin.
Qed.

Lemma read_rows_eval (rs pre : list Row) (d : PyDict.dict bool) (p : Page) :
  rows p = pre ++ rs →
  BaseCheckboxSelect.read_rows (matching (λ _, true) ListItem (length pre) rs) d p =
    (Ok (foldl (λ d r, PyDict.set (row_text r) (checked r) d) d rs), p).
Proof.
  revert pre d. induction rs as [|r rs IH]; intros pre d Hrows; [done|].
  cbn. unfold bind.
  rewrite (read_row_eval _ r)
    by (by rewrite Hrows, lookup_app_r, Nat.sub_diag by lia).
  specialize (IH (pre ++ [r])).
  rewrite length_app in IH. cbn in IH. rewrite Nat.add_1_r in IH.
  apply IH. by rewrite Hrows, <- app_assoc.
Qed.

Lemma read_eval (p : Page) :
  BaseCheckboxSelect.read p = (Ok (read_dict (rows p)), set_open false p).
Proof.
  unfold BaseCheckboxSelect.read, Dropdown.opened, bind, try_finally,
    Dropdown.open, browser.elements.
  cbn. by rewrite (read_rows_eval (rows p) [] _ (set_open true p) eq_refl).
Qed.

Lemma get_read (L : string) (rs : list Row) (d : PyDict.dict bool) :
  PyDict.get L (foldl (λ d r, PyDict.set (row_text r) (checked r) d) d rs) =
    match last_value L rs with
    | Some v => Some v
    | None => PyDict.get L d
    end.
Proof.
  revert d. induction rs as [|r rs IH]; intros d; [done|].
  cbn. rewrite IH. destruct (last_value L rs); [done|].
  unfold has_text. case_bool_decide as Ht.
  - rewrite Ht. apply get_set_eq.
  - by apply get_set_ne.
Qed.

Lemma filter_not_in_nil (l : list string) : filter (λ y, y ∉ []) l = l.
Proof.
  induction l as [|x l IH]; [done|].
  rewrite filter_cons_True by apply not_elem_of_nil. by rewrite IH.
Qed.

Lemma filter_not_in_app (t : string) (ks l : list string) :
  filter (λ y, y ∉ ks ++ [t]) l = filter (λ y, y ∉ ks) (filter (λ y, y ≠ t) l).
Proof.
  rewrite list_filter_filter. apply list_filter_iff. intros y.
  rewrite not_elem_of_app, list_elem_of_singleton. tauto.
Qed.

Lemma filter_not_in_known (t : string) (ks l : list string) :
  t ∈ ks →
  filter (λ y, y ∉ ks) (filter (λ y, y ≠ t) l) = filter (λ y, y ∉ ks) l.
Proof.
  intros Ht. rewrite list_filter_filter. apply list_filter_iff. intros y.
  split; [tauto|]. intros Hy. split; [done|]. by intros ->.
Qed.

Lemma keys_read (rs : list Row) (d : PyDict.dict bool) :
  PyDict.keys (foldl (λ d r, PyDict.set (row_text r) (checked r) d) d rs) =
    PyDict.keys d
      ++ filter (λ y, y ∉ PyDict.keys d) (first_occurrences (row_text <$> rs)).
Proof.
  revert d. induction rs as [|r rs IH]; intros d.
  - cbn. by rewrite app_nil_r.
  - cbn [foldl]. rewrite fmap_cons. cbn [first_occurrences].
    rewrite IH, keys_set. destruct (decide (row_text r ∈ PyDict.keys d)) as [Hin|Hnin].
    + rewrite filter_cons_False by (by intros ?).
      by rewrite filter_not_in_known.
    + rewrite filter_cons_True by done.
      by rewrite filter_not_in_app, <- app_assoc.
Qed.

Lemma last_value_absent (L : string) (rs : list Row) :
  L ∉ row_text <$> rs → last_value L rs = None.
Proof.
  induction rs as [|r rs IH]; [done|]. cbn.
  intros [Hne Hnin]%not_elem_of_cons. rewrite IH by done.
  unfold has_text. by rewrite bool_decide_eq_false_2.
Qed.

Lemma last_value_last (pre post : list Row) (r : Row) :
  row_text r ∉ row_text <$> post →
  last_value (row_text r) (pre ++ r :: post) = Some (checked r).
Proof.
  intros Hpost. induction pre as [|x pre IH]; cbn.
  - rewrite last_value_absent by done. unfold has_text.
    by rewrite bool_decide_eq_true_2.
  - by rewrite IH.
Qed.

(** C8.  [read] returns, with the menu closed again, a dictionary whose
    keys are the labels of the entries in rendered order; the value of a
    label is that of the last entry that renders it, which is the checked
    state of its toggle control, or [False] when it has none. *)
Theorem read_mapping (p : Page) :
  ∃ d, BaseCheckboxSelect.read p = (Ok d, set_open false p)
    ∧ PyDict.keys d = first_occurrences (labels p)
    ∧ (∀ pre r post,
         rows p = pre ++ r :: post →
         row_text r ∉ row_text <$> post →
         PyDict.get (row_text r) d =
           Some match row_input r with Some b => b | None => false end)
    ∧ (∀ L, L ∉ labels p → PyDict.get L d = None).
Proof.
  exists (read_dict (rows p)). split_and!.
  - apply read_eval.
  - unfold read_dict. rewrite keys_read. cbn.
    apply filter_not_in_nil.
  - intros pre r post Hrows Hpost. unfold read_dict.
    rewrite get_read, Hrows, last_value_last by done. done.
  - intros L HL. unfold read_dict. by rewrite get_read, last_value_absent.
Qed.

(** ** BaseCheckboxSelect.fill on the page *)

Lemma toggle_state_set_toggle_is_Some (k k' : string) (v : bool) (rs : list Row) :
  is_Some (toggle_state k' rs) → is_Some (toggle_state k' (set_toggle k v rs)).
Proof.
  intros [b Hb]. destruct (decide (k = k')) as [->|Hne].
  - rewrite toggle_state_set_toggle, Hb. by eexists.
  - rewrite toggle_state_set_toggle_ne, Hb by done. by eexists.
Qed.

Lemma fill_entry_eval (k : string) (v : bool) (p : Page) (i : nat) (b : bool) :
  toggle_index k (rows p) = Some i →
  toggle_state k (rows p) = Some b →
  BaseCheckboxSelect.fill_entry
    CheckboxSelect.item_select CheckboxSelect.item_deselect (k, v) p =
    (Ok (), toggled k i b v p).
Proof.
  intros Hi Hb.
  pose proof (select_one_toggles k p) as Hsel.
  pose proof (deselect_one_toggles k p) as Hdes.
  rewrite Hi in Hsel, Hdes.
  destruct Hsel as (b1 & Hb1 & Hsel), Hdes as (b2 & Hb2 & Hdes).
  assert (b1 = b) as -> by congruence. assert (b2 = b) as -> by congruence.
  unfold BaseCheckboxSelect.fill_entry,
    CheckboxSelect.item_select, CheckboxSelect.item_deselect.
  destruct v.
  - rewrite item_select_eval. cbn [BaseCheckboxSelect.as_list].
    by rewrite for_each_cons, Hsel.
  - rewrite item_deselect_eval. cbn [BaseCheckboxSelect.as_list].
    by rewrite for_each_cons, Hdes.
Qed.

Lemma fill_loop_eval (m : PyDict.dict bool) (p : Page) :
  (∀ k, k ∈ m.*1 → is_Some (toggle_state k (rows p))) →
  ∃ p1,
    for_each m (BaseCheckboxSelect.fill_entry
                  CheckboxSelect.item_select CheckboxSelect.item_deselect) p =
      (Ok (), p1)
    ∧ rows p1 = apply_fill m (rows p)
    ∧ button_text p1 = button_text p.
Proof.
  revert p. induction m as [|[k v] m IH]; intros p Hall; [by exists p|].
  destruct (Hall k) as [b Hb]; [apply list_elem_of_here|].
  destruct (toggle_state_Some _ _ _ Hb) as [i Hi].
  rewrite for_each_cons, (fill_entry_eval k v p i b) by done.
  destruct (IH (toggled k i b v p)) as (p1 & Hrun & Hrows & Hbt).
  { intros k' Hk'. cbn. apply toggle_state_set_toggle_is_Some, Hall.
    by apply list_elem_of_further. }
  exists p1. by rewrite Hrun, Hrows, Hbt.
Qed.

Lemma fill_eval (m : PyDict.dict bool) (p : Page) :
  (∀ k, k ∈ m.*1 → is_Some (toggle_state k (rows p))) →
  ∃ p1, CheckboxSelect.fill m p = (Ok (), p1)
        ∧ rows p1 = apply_fill m (rows p) ∧ is_open p1 = false.
Proof.
  intros Hall. destruct (fill_loop_eval m p Hall) as (p1 & Hrun & Hrows & _).
  exists (set_open false p1).
  unfold CheckboxSelect.fill, BaseCheckboxSelect.fill, try_finally.
  by rewrite Hrun.
Qed.

Lemma last_value_set_toggle_ne (L k : string) (v : bool) (rs : list Row) :
  L ≠ k → last_value L (set_toggle k v rs) = last_value L rs.
Proof.
  intros Hne. induction rs as [|r rs IH]; [done|]. cbn.
  destruct (has_text k r && has_input r) eqn:Hr; cbn.
  - apply andb_prop in Hr as [Ht%bool_decide_eq_true _].
    unfold has_text. cbn. by rewrite !bool_decide_eq_false_2 by congruence.
  - by rewrite IH.
Qed.

Lemma last_value_set_toggle_eq (k : string) (v : bool) (rs : list Row) :
  NoDup (row_text <$> rs) →
  is_Some (toggle_state k rs) →
  last_value k (set_toggle k v rs) = Some v.
Proof.
  induction rs as [|r rs IH]; [by intros _ [? ?]|].
  rewrite fmap_cons. intros [Hnin Hnd]%NoDup_cons. cbn.
  destruct (has_text k r && has_input r) eqn:Hr; cbn.
  - intros _. apply andb_prop in Hr as [Ht%bool_decide_eq_true _]. subst k.
    rewrite last_value_absent by done. unfold has_text. cbn.
    by rewrite bool_decide_eq_true_2.
  - intros Hsome. by rewrite IH.
Qed.

Lemma last_value_apply_fill (m : PyDict.dict bool) (rs : list Row) :
  NoDup (row_text <$> rs) →
  NoDup m.*1 →
  (∀ k, k ∈ m.*1 → is_Some (toggle_state k rs)) →
  (∀ k v, (k, v) ∈ m → last_value k (apply_fill m rs) = Some v)
  ∧ (∀ L, L ∉ m.*1 → last_value L (apply_fill m rs) = last_value L rs).
Proof.
  revert rs. induction m as [|[k v] m IH]; intros rs Hnd Hkeys Hall.
  - split; [|done]. intros k v Hkv. by apply elem_of_nil in Hkv.
  - rewrite fmap_cons in Hkeys. apply NoDup_cons in Hkeys as [Hk Hkeys].
    destruct (IH (set_toggle k v rs)) as [IHin IHout]; [| done | |].
    { by rewrite set_toggle_labels. }
    { intros k' Hk'. apply toggle_state_set_toggle_is_Some, Hall.
      by apply list_elem_of_further. }
    split.
    + intros k' v' [[= -> ->]|Hin]%elem_of_cons; [|by apply IHin].
      cbn. rewrite IHout by done. apply last_value_set_toggle_eq; [done|].
      apply Hall, list_elem_of_here.
    + intros L [Hne HL]%not_elem_of_cons. cbn. rewrite IHout by done.
      by apply last_value_set_toggle_ne.
Qed.

Lemma apply_fill_labels (m : PyDict.dict bool) (rs : list Row) :
  row_text <$> apply_fill m rs = row_text <$> rs.
Proof.
  revert rs. induction m as [|[k v] m IH]; intros rs; [done|].
  change (apply_fill ((k, v) :: m) rs) with (apply_fill m (set_toggle k v rs)).
  by rewrite IH, set_toggle_labels.
Qed.

(** [fill] followed by [read], for any mapping: the labels of the mapping
    read back as the mapping says and every other label reads back as
    before. *)
Lemma fill_then_read (m : PyDict.dict bool) (p : Page) :
  NoDup (labels p) →
  NoDup m.*1 →
  (∀ k, k ∈ m.*1 → is_Some (toggle_state k (rows p))) →
  ∃ p1 d d0,
    CheckboxSelect.fill m p = (Ok (), p1)
    ∧ CheckboxSelect.read p1 = (Ok d, p1)
    ∧ CheckboxSelect.read p = (Ok d0, set_open false p)
    ∧ PyDict.keys d = PyDict.keys d0
    ∧ (∀ k v, (k, v) ∈ m → PyDict.get k d = Some v)
    ∧ (∀ L, L ∉ m.*1 → PyDict.get L d = PyDict.get L d0).
Proof.
  intros Hnd Hkeys Hall.
  destruct (fill_eval m p Hall) as (p1 & Hfill & Hrows & Hclosed).
  destruct (last_value_apply_fill m (rows p) Hnd Hkeys Hall) as [Hin Hout].
  exists p1, (read_dict (rows p1)), (read_dict (rows p)).
  unfold CheckboxSelect.read. rewrite !read_eval.
  assert (set_open false p1 = p1) as -> by (destruct p1; cbn in *; by subst).
  split_and!; try done.
  - unfold read_dict. by rewrite !keys_read, Hrows, apply_fill_labels.
  - intros k v Hkv. unfold read_dict. by rewrite get_read, Hrows, (Hin k v).
  - intros L HL. unfold read_dict. by rewrite !get_read, Hrows, Hout.
Qed.

Lemma filter_label_absent (k : string) (rs : list Row) :
  length (filter (λ r, row_text r = k) rs) = 0 → k ∉ row_text <$> rs.
Proof.
  induction rs as [|r rs IH]; [intros _; apply not_elem_of_nil|].
  rewrite fmap_cons. destruct (decide (row_text r = k)) as [Hk|Hk].
  - by rewrite filter_cons_True.
  - rewrite filter_cons_False by done. intros H.
    apply not_elem_of_cons. split; [done|by apply IH].
Qed.

Lemma filter_label_set_toggle (k k' : string) (v : bool) (rs : list Row) :
  length (filter (λ r, row_text r = k) (set_toggle k' v rs)) =
    length (filter (λ r, row_text r = k) rs).
Proof.
  induction rs as [|r rs IH]; [done|]. cbn [set_toggle].
  destruct (has_text k' r && has_input r).
  - destruct (decide (row_text r = k)) as [Hk|Hk].
    + by rewrite !filter_cons_True.
    + by rewrite !filter_cons_False.
  - destruct (decide (row_text r = k)) as [Hk|Hk].
    + rewrite !filter_cons_True by done. cbn. by rewrite IH.
    + by rewrite !filter_cons_False.
Qed.

Lemma toggle_state_absent (k : string) (rs : list Row) :
  k ∉ row_text <$> rs → toggle_state k rs = None.
Proof. intros Habs. by apply toggle_index_None, absent_no_toggle. Qed.

(** When one entry only renders [k] and it has a toggle control, the value
    read for [k] is the state that control has been brought to. *)
Lemma last_value_set_toggle_once (k : string) (v : bool) (rs : list Row) :
  length (filter (λ r, row_text r = k) rs) = 1 →
  is_Some (toggle_state k rs) →
  last_value k (set_toggle k v rs) = Some v.
Proof.
  induction rs as [|r rs IH]; [done|]. cbn [set_toggle toggle_state].
  destruct (has_text k r && has_input r) eqn:Hr.
  - apply andb_prop in Hr as [Ht%bool_decide_eq_true _].
    rewrite filter_cons_True by done. cbn. intros [= Hlen] _.
    rewrite last_value_absent by by apply filter_label_absent.
    unfold has_text. cbn. by rewrite bool_decide_eq_true_2.
  - destruct (decide (row_text r = k)) as [Hk|Hk].
    + rewrite filter_cons_True by done. cbn. intros [= Hlen] Hsome.
      rewrite toggle_state_absent in Hsome by by apply filter_label_absent.
      by destruct Hsome.
    + rewrite filter_cons_False by done. intros Hlen Hsome.
      cbn [last_value]. by rewrite IH.
Qed.

Lemma last_value_apply_fill_once (m : PyDict.dict bool) (rs : list Row) :
  NoDup m.*1 →
  (∀ k, k ∈ m.*1 → length (filter (λ r, row_text r = k) rs) = 1
                    ∧ is_Some (toggle_state k rs)) →
  (∀ k v, (k, v) ∈ m → last_value k (apply_fill m rs) = Some v)
  ∧ (∀ L, L ∉ m.*1 → last_value L (apply_fill m rs) = last_value L rs).
Proof.
  revert rs. induction m as [|[k v] m IH]; intros rs Hkeys Hall.
  - split; [|done]. intros k v Hkv. by apply elem_of_nil in Hkv.
  - rewrite fmap_cons in Hkeys. apply NoDup_cons in Hkeys as [Hk Hkeys].
    destruct (IH (set_toggle k v rs)) as [IHin IHout]; [done| |].
    { intros k' Hk'. destruct (Hall k') as [Hone Hsome];
        [by apply list_elem_of_further|].
      split; [by rewrite filter_label_set_toggle|].
      by apply toggle_state_set_toggle_is_Some. }
    destruct (Hall k (list_elem_of_here _ _)) as [Hone Hsome].
    split.
    + intros k' v' [[= -> ->]|Hin]%elem_of_cons; [|by apply IHin].
      change (apply_fill ((k, v) :: m) rs) with (apply_fill m (set_toggle k v rs)).
      rewrite IHout by done. by apply last_value_set_toggle_once.
    + intros L [Hne HL]%not_elem_of_cons.
      change (apply_fill ((k, v) :: m) rs) with (apply_fill m (set_toggle k v rs)).
      rewrite IHout by done. by apply last_value_set_toggle_ne.
Qed.

(** C4, as the code has it.  On a checkbox menu in which each of the labels
    [a], [b] and [c] is rendered by exactly one entry, with a toggle control,
    [fill({"a": True, "b": False, "c": True})] returns, and the [read()]
    after it maps [a] to [True], [b] to [False] and [c] to [True], has the
    keys it had before, and maps every other label to what it was mapped to
    before.  The other labels may be rendered more than once. *)
Theorem fill_read_roundtrip (p : Page) :
  rendered_once "a" p → is_Some (toggle_state "a" (rows p)) →
  rendered_once "b" p → is_Some (toggle_state "b" (rows p)) →
  rendered_once "c" p → is_Some (toggle_state "c" (rows p)) →
  ∃ p1 d d0,
    CheckboxSelect.fill [("a", true); ("b", false); ("c", true)] p = (Ok (), p1)
    ∧ CheckboxSelect.read p1 = (Ok d, p1)
    ∧ PyDict.get "a" d = Some true
    ∧ PyDict.get "b" d = Some false
    ∧ PyDict.get "c" d = Some true
    ∧ CheckboxSelect.read p = (Ok d0, set_open false p)
    ∧ PyDict.keys d = PyDict.keys d0
    ∧ (∀ L, L ≠ "a" → L ≠ "b" → L ≠ "c" → PyDict.get L d = PyDict.get L d0).
Proof.
  intros Ha1 Ha Hb1 Hb Hc1 Hc.
  set (m := [("a", true); ("b", false); ("c", true)]).
  assert (∀ k, k ∈ m.*1 →
            length (filter (λ r, row_text r = k) (rows p)) = 1
            ∧ is_Some (toggle_state k (rows p))) as Hall.
  { intros k. cbn. rewrite !elem_of_cons, elem_of_nil.
    by intros [->|[->|[->|[]]]]. }
  assert (NoDup m.*1) as Hkeys.
  { cbn. repeat (apply NoDup_cons; split; [compute_done|]). apply NoDup_nil_2. }
  destruct (fill_eval m p) as (p1 & Hfill & Hrows & Hclosed).
  { intros k Hk. by apply Hall. }
  destruct (last_value_apply_fill_once m (rows p) Hkeys Hall) as [Hin Hout].
  exists p1, (read_dict (rows p1)), (read_dict (rows p)).
  unfold CheckboxSelect.read. rewrite !read_eval.
  assert (set_open false p1 = p1) as -> by (destruct p1; cbn in *; by subst).
  unfold read_dict. rewrite !get_read, !keys_read, Hrows, apply_fill_labels.
  split_and!; try done.
  - rewrite (Hin "a" true); [done|compute_done].
  - rewrite (Hin "b" false); [done|compute_done].
  - rewrite (Hin "c" true); [done|compute_done].
  - intros L H1 H2 H3. rewrite !get_read, Hout; [done|].
    cbn. rewrite !elem_of_cons, elem_of_nil. tauto.
Qed.

Lemma fill_read_roundtrip_witness :
  ∃ p1 d d0,
    CheckboxSelect.fill [("a", true); ("b", false); ("c", true)] demo_checkbox
      = (Ok (), p1)
    ∧ CheckboxSelect.read p1 = (Ok d, p1)
    ∧ PyDict.get "a" d = Some true
    ∧ PyDict.get "b" d = Some false
    ∧ PyDict.get "c" d = Some true
    ∧ CheckboxSelect.read demo_checkbox = (Ok d0, set_open false demo_checkbox)
    ∧ PyDict.keys d = PyDict.keys d0
    ∧ (∀ L, L ≠ "a" → L ≠ "b" → L ≠ "c" → PyDict.get L d = PyDict.get L d0).
Proof.
  apply (fill_read_roundtrip demo_checkbox).
  - reflexivity.
  - compute_done.
  - reflexivity.
  - compute_done.
  - reflexivity.
  - compute_done.
Defined.

(** C4, as it was stated, fails when a label is rendered twice.  The menu
    renders [a], [b], [c] and a second [a], each with a toggle control:
    [fill] clicks the toggle control of the first [a], the one the lookup
    finds, and returns; [read] records for [a] the value of the last entry
    that renders it, which is still unselected. *)
Lemma fill_read_duplicate_label :
  CheckboxSelect.fill [("a", true); ("b", false); ("c", true)] duplicate_checkbox =
    (Ok (), mkPage [checkbox_row "a" true; checkbox_row "b" false;
                    checkbox_row "c" true; checkbox_row "a" false]
                   false "Filter" [Input 0; Input 1; Input 2])
  ∧ CheckboxSelect.read
      (mkPage [checkbox_row "a" true; checkbox_row "b" false;
               checkbox_row "c" true; checkbox_row "a" false]
              false "Filter" [Input 0; Input 1; Input 2]) =
      (Ok [("a", false); ("b", false); ("c", true)],
       mkPage [checkbox_row "a" true; checkbox_row "b" false;
               checkbox_row "c" true; checkbox_row "a" false]
              false "Filter" [Input 0; Input 1; Input 2])
  ∧ PyDict.get "a" [("a", false); ("b", false); ("c", true)] ≠ Some true.
Proof. split_and!; [reflexivity..|]. by intros [=]. Qed.

(** ** The calls of BaseCheckboxSelect.fill *)

Section RecordedFill.

Variable outcome : call → list call → option exn.

Let entry_body : string * bool → M (list call) unit :=
  BaseCheckboxSelect.fill_entry
    (λ its close, record outcome (CallSelect its close))
    (λ its close, record outcome (CallDeselect its close)).

Lemma entry_body_records (entry : string * bool) (log : list call) :
  entry_body entry log = record outcome (entry_call entry) log.
Proof. destruct entry as [k []]; done. Qed.

(** The loop calls [item_select] or [item_deselect] with [close=False]
    for the entries in order, up to the first call that raises. *)
Lemma recorded_loop (items : PyDict.dict bool) (log : list call) :
  ∃ n : nat, (n ≤ length items)%nat
    ∧ (for_each items entry_body log).2 = log ++ (entry_call <$> take n items)
    ∧ ((for_each items entry_body log).1 = Ok () → n = length items).
Proof.
  revert log. induction items as [|entry items IH]; intros log.
  - exists 0. cbn. by rewrite app_nil_r.
  - rewrite for_each_cons, entry_body_records. unfold record.
    destruct (outcome (entry_call entry) log) as [e|].
    + exists 1. cbn. split_and!; [lia| by rewrite take_0 | done].
    + destruct (IH (log ++ [entry_call entry])) as (n & Hn & Hlog & Hok).
      exists (S n). cbn. rewrite Hlog, <- app_assoc. cbn.
      split_and!; [lia|done|]. intros H. by rewrite Hok.
Qed.

Lemma count_close_entries (entries : list (string * bool)) :
  count_close (entry_call <$> entries) = 0.
Proof.
  unfold count_close. induction entries as [|[k v] entries IH]; [done|].
  rewrite fmap_cons, filter_cons_False; [done|]. by destruct v.
Qed.

(** C7.  Of the calls [fill] makes on the widget, the last one is
    [close()] and it is the only [close()]; before it come, in the order of
    the mapping, [item_select(label, close=False)] for an entry that is
    true and [item_deselect(label, close=False)] for one that is false, up
    to the first that raises.  This holds whichever of the calls raise, and
    for the empty mapping the single call is [close()].  On the page, the
    menu is closed when [fill] returns and the outcome is that of the
    loop. *)
Theorem fill_closes_exactly_once (items : PyDict.dict bool) (p : Page) :
  (∃ n : nat, (n ≤ length items)%nat
     ∧ (recorded_fill outcome items []).2 =
         (entry_call <$> take n items) ++ [CallClose]
     ∧ ((∀ c log, outcome c log = None) → n = length items))
  ∧ count_close (recorded_fill outcome items []).2 = 1
  ∧ (items = [] → (recorded_fill outcome items []).2 = [CallClose])
  ∧ is_open (CheckboxSelect.fill items p).2 = false
  ∧ (CheckboxSelect.fill items p).1 =
      (for_each items
         (BaseCheckboxSelect.fill_entry
            CheckboxSelect.item_select CheckboxSelect.item_deselect) p).1.
Proof.
  assert (∃ n : nat, (n ≤ length items)%nat
            ∧ (recorded_fill outcome items []).2 =
                (entry_call <$> take n items) ++ [CallClose]
            ∧ ((∀ c log, outcome c log = None) → n = length items)) as Hlog.
  { destruct (recorded_loop items []) as (n & Hn & Hlog & Hok).
    exists n. unfold recorded_fill, BaseCheckboxSelect.fill, try_finally.
    fold entry_body. destruct (for_each items entry_body []) as [r log] eqn:Hrun.
    cbn in Hlog, Hok. subst log. unfold record.
    split_and!; [done| by destruct (outcome CallClose _) |].
    intros Hnone. apply Hok. clear -Hrun Hnone.
    assert (∀ items log r log',
              for_each items entry_body log = (r, log') → r = Ok ()) as H;
      [|by eapply H].
    clear -Hnone. induction items as [|entry items IH]; intros log r log'.
    - by intros [= <- _].
    - rewrite for_each_cons, entry_body_records. unfold record.
      rewrite Hnone. apply IH. }
  split_and!.
  - exact Hlog.
  - destruct Hlog as (n & _ & -> & _). unfold count_close.
    rewrite filter_app. fold (count_close (entry_call <$> take n items)).
    rewrite length_app. fold (count_close (entry_call <$> take n items)).
    rewrite count_close_entries. by rewrite filter_cons_True.
  - intros ->. unfold recorded_fill, BaseCheckboxSelect.fill, try_finally, record.
    cbn. by destruct (outcome CallClose []).
  - unfold CheckboxSelect.fill, BaseCheckboxSelect.fill, try_finally.
    by destruct (for_each items _ p).
  - unfold CheckboxSelect.fill, BaseCheckboxSelect.fill, try_finally.
    by destruct (for_each items _ p).
Qed.

End RecordedFill.

(** ** The single select on the page *)

Lemma dropdown_items_labels (p : Page) :
  Dropdown.items p = (Ok (labels p), set_open false p).
Proof.
  unfold Dropdown.items, Dropdown.opened, bind, try_finally, Dropdown.open,
    browser.elements.
  cbn. f_equal. f_equal. unfold labels.
  enough (∀ rs pre, rows p = pre ++ rs →
            (λ el, browser.text_of el (set_open true p))
              <$> matching (λ _, true) ListItem (length pre) rs = row_text <$> rs)
    as H by apply (H (rows p) [] eq_refl).
  induction rs as [|r rs IH]; intros pre Hrows; [done|].
  cbn [matching]. rewrite !fmap_cons. f_equal.
  - unfold browser.text_of. cbn [rows set_open].
    by rewrite Hrows, lookup_app_r, Nat.sub_diag by lia.
  - specialize (IH (pre ++ [r])).
    rewrite length_app in IH. cbn in IH. rewrite Nat.add_1_r in IH.
    apply IH. by rewrite Hrows, <- app_assoc.
Qed.

Lemma dropdown_enabled_items_labels (p : Page) :
  Dropdown.enabled_items p = (Ok (enabled_labels p), set_open false p).
Proof. done. Qed.

Lemma dropdown_item_element_entry (item : string) (close : bool) (p : Page) :
  Dropdown.item_element ITEM_LOCATOR_BASE item close p =
    match first_match (has_text item) (rows p) with
    | Some i => (Ok (ListItem i), set_open (negb close) p)
    | None =>
        (Raise (DropdownItemNotFound (Format TplBase [ArgRepr item])),
         set_open true p)
    end.
Proof.
  unfold Dropdown.item_element, try_except, bind, Dropdown.open.
  rewrite element_entry by done. cbn [rows set_open].
  destruct (first_match (has_text item) (rows p)); [|done]. by destruct close.
Qed.

Lemma select_item_element (item : string) (close : bool) (p : Page) :
  Select.item_element item close p =
    match first_match (has_text item) (rows p) with
    | Some i => (Ok (ListItem i), set_open (negb close) p)
    | None =>
        (Raise (SelectItemNotFound (not_found_message item (labels p))),
         set_open false p)
    end.
Proof.
  unfold Select.item_element, BaseSelect.ITEM_LOCATOR.
  unfold BaseSelect.item_element, try_except.
  rewrite dropdown_item_element_entry.
  destruct (first_match (has_text item) (rows p)); [done|].
  cbn [is_DropdownItemNotFound]. unfold bind, Select.items.
  by rewrite dropdown_items_labels.
Qed.

Lemma dropdown_item_select_disabled (L : string) (p : Page) (i : nat) (r : Row) :
  first_match (has_text L) (rows p) = Some i →
  rows p !! i = Some r →
  "pf-m-disabled" ∈ row_classes r →
  Dropdown.item_select Select.item_element L p =
    (Raise (DropdownItemDisabled (Format TplBase [ArgStr L])), set_open false p).
Proof.
  intros Hi Hr Hdis. unfold Dropdown.item_select, try_finally, bind.
  rewrite select_item_element, Hi. unfold browser.classes. cbn [rows set_open].
  rewrite Hr, bool_decide_eq_true_2 by done. done.
Qed.

(** C5.  When the lookup of the base dropdown fails with
    [DropdownItemNotFound], [BaseSelect.item_element] raises
    [SelectItemNotFound], and the list its message is formatted with is the
    value of [self.items] read at that moment.  On the page: for a label that
    no entry renders, the lookup of the single select raises
    [SelectItemNotFound] with the labels of all entries. *)
Theorem item_element_not_found :
  (∀ (W : Type) (super_item_element : string → bool → M W elem)
     (self_items : M W (list string))
     (item : string) (close : bool) (w w1 w2 : W) (e : exn) (its : list string),
     super_item_element item close w = (Raise e, w1) →
     is_DropdownItemNotFound e = true →
     self_items w1 = (Ok its, w2) →
     BaseSelect.item_element super_item_element self_items item close w =
       (Raise (SelectItemNotFound
                 (Format TplItemNotFoundIn [ArgRepr item; ArgSelf; ArgList its])),
        w2))
  ∧ (∀ (L : string) (close : bool) (p : Page),
       L ∉ labels p →
       Select.item_element L close p =
         (Raise (SelectItemNotFound
                   (Format TplItemNotFoundIn [ArgRepr L; ArgSelf; ArgList (labels p)])),
          set_open false p)).
Proof.
  split.
  - intros W super_item_element self_items. apply item_element_translates.
  - intros L close p Habs. by rewrite select_item_element, absent_no_entry.
Qed.

Lemma item_element_not_found_witness :
  Dropdown.item_element BaseSelect.ITEM_LOCATOR "Delta" true demo_select =
    (Raise (DropdownItemNotFound (Format TplBase [ArgRepr "Delta"])),
     set_open true demo_select)
  ∧ is_DropdownItemNotFound
      (DropdownItemNotFound (Format TplBase [ArgRepr "Delta"])) = true
  ∧ Select.items (set_open true demo_select) =
      (Ok ["Alpha"; "Beta"; "Gamma"], demo_select)
  ∧ Select.item_element "Delta" true demo_select =
      (Raise (SelectItemNotFound
                (Format TplItemNotFoundIn
                   [ArgRepr "Delta"; ArgSelf; ArgList ["Alpha"; "Beta"; "Gamma"]])),
       demo_select).
Proof.
  split_and!; [reflexivity..|].
  exact (proj1 item_element_not_found Page
           (Dropdown.item_element BaseSelect.ITEM_LOCATOR) Select.items
           "Delta" true demo_select (set_open true demo_select) demo_select
           (DropdownItemNotFound (Format TplBase [ArgRepr "Delta"]))
           ["Alpha"; "Beta"; "Gamma"] eq_refl eq_refl eq_refl).
Defined.

(** C6.  When the base dropdown refuses the item with
    [DropdownItemDisabled], [BaseSelect.item_select] raises
    [SelectItemDisabled], and the list its message is formatted with is the
    value of [self.enabled_items] read at that moment.  On the page: for a
    label whose entry is rendered with the disabled marker, [item_select] of
    the single select raises [SelectItemDisabled] with the labels of the
    entries that do not carry the marker. *)
Theorem item_select_disabled :
  (∀ (W : Type) (super_item_select : string → M W unit)
     (self_enabled_items : M W (list string))
     (item : string) (w w1 w2 : W) (e : exn) (its : list string),
     super_item_select item w = (Raise e, w1) →
     is_DropdownItemDisabled e = true →
     self_enabled_items w1 = (Ok its, w2) →
     BaseSelect.item_select super_item_select self_enabled_items item w =
       (Raise (SelectItemDisabled
                 (Format TplItemDisabled [ArgStr item; ArgSelf; ArgList its])),
        w2))
  ∧ (∀ (L : string) (p : Page) (i : nat) (r : Row),
       first_match (has_text L) (rows p) = Some i →
       rows p !! i = Some r →
       "pf-m-disabled" ∈ row_classes r →
       Select.item_select L p =
         (Raise (SelectItemDisabled
                   (Format TplItemDisabled
                      [ArgStr L; ArgSelf; ArgList (enabled_labels p)])),
          set_open false p)).
Proof.
  split.
  - intros W super_item_select self_enabled_items. apply item_select_translates.
  - intros L p i r Hi Hr Hdis. unfold Select.item_select.
    apply (item_select_translates _ _ L p (set_open false p) (set_open false p)
             (DropdownItemDisabled (Format TplBase [ArgStr L]))); [|done..].
    by apply (dropdown_item_select_disabled L p i r).
Qed.

Lemma item_select_disabled_witness :
  first_match (has_text "Beta") (rows demo_select) = Some 1
  ∧ rows demo_select !! 1 =
      Some (mkRow "Beta" ["pf-v5-c-menu__list-item"; "pf-m-disabled"] None)
  ∧ Select.item_select "Beta" demo_select =
      (Raise (SelectItemDisabled
                (Format TplItemDisabled
                   [ArgStr "Beta"; ArgSelf; ArgList ["Alpha"; "Gamma"]])),
       demo_select).
Proof.
  split_and!; [reflexivity..|].
  apply (proj2 item_select_disabled "Beta" demo_select 1
           (mkRow "Beta" ["pf-v5-c-menu__list-item"; "pf-m-disabled"] None)).
  - reflexivity.
  - reflexivity.
  - compute_done.
Defined.

(** For a label that is not rendered, [item_select] of the single select
    raises [SelectItemNotFound] with the labels of the page. *)
Lemma select_item_select_not_found (L : string) (p : Page) :
  L ∉ labels p →
  Select.item_select L p =
    (Raise (SelectItemNotFound (not_found_message L (labels p))), set_open false p).
Proof.
  intros Habs. unfold Select.item_select, BaseSelect.item_select, try_except.
  unfold Dropdown.item_select, try_finally, bind.
  by rewrite select_item_element, absent_no_entry.
Qed.

(** An enabled label is selected: the trigger button shows it afterwards. *)
Lemma select_item_select_read (L : string) (p : Page) (i : nat) (r : Row) :
  first_match (has_text L) (rows p) = Some i →
  rows p !! i = Some r →
  "pf-m-disabled" ∉ row_classes r →
  ∃ p1, Select.item_select L p = (Ok (), p1)
        ∧ is_open p1 = false
        ∧ Select.read p1 = (Ok L, p1).
Proof.
  intros Hi Hr Hen.
  destruct (first_match_lookup _ _ _ Hi) as (r' & Hr' & Ht).
  assert (r' = r) as -> by congruence. apply bool_decide_eq_true in Ht.
  eexists. unfold Select.item_select, BaseSelect.item_select, try_except.
  unfold Dropdown.item_select, try_finally, bind.
  rewrite select_item_element, Hi. unfold browser.classes. cbn [rows set_open].
  rewrite Hr, bool_decide_eq_false_2 by done. cbn. rewrite Hr.
  split_and!; [reflexivity|done|]. by rewrite Ht.
Qed.

(** The scenario of the documentation: items Alpha, Beta and Gamma, Beta
    disabled. *)
Example scenario_disabled :
  (Select.item_select "Beta" demo_select).1 =
    Raise (SelectItemDisabled
             (Format TplItemDisabled [ArgStr "Beta"; ArgSelf; ArgList ["Alpha"; "Gamma"]])).
Proof. reflexivity. Qed.

Example scenario_not_found :
  (Select.item_select "Delta" demo_select).1 =
    Raise (SelectItemNotFound
             (Format TplItemNotFoundIn
                [ArgRepr "Delta"; ArgSelf; ArgList ["Alpha"; "Beta"; "Gamma"]])).
Proof. reflexivity. Qed.

Example scenario_select_read :
  (Select.read (Select.item_select "Gamma" demo_select).2).1 = Ok "Gamma".
Proof. reflexivity. Qed.

(** ** The checkbox select on small menus *)

(** Two entries render the same label: the value read is that of the later
    one, at the place of the first. *)
Example read_duplicate_labels :
  (CheckboxSelect.read
     (mkPage [checkbox_row "x" true; checkbox_row "y" true; checkbox_row "x" false]
             false "Filter" [])).1 =
    Ok [("x", false); ("y", true)].
Proof. reflexivity. Qed.

(** An entry without a toggle control reads as not selected. *)
Example read_without_toggle :
  (CheckboxSelect.read
     (mkPage [mkRow "x" [] None; checkbox_row "y" true] false "Filter" [])).1 =
    Ok [("x", false); ("y", true)].
Proof. reflexivity. Qed.

(** [item_enabled] on a rendered item returns with the menu closed; on an
    item that is not rendered it raises with the menu open. *)
Example item_enabled_present :
  CheckboxSelect.item_enabled "a" true demo_checkbox = (Ok true, demo_checkbox).
Proof. reflexivity. Qed.

Example item_enabled_absent :
  CheckboxSelect.item_enabled "zzz" true demo_checkbox =
    (Raise (SelectItemNotFound (Format TplItemNotFound [ArgRepr "zzz"])),
     set_open true demo_checkbox).
Proof. reflexivity. Qed.

(** [fill] with a label that is not rendered: the call made for it raises,
    no later entry is touched, and the menu is closed. *)
Example fill_absent_label :
  CheckboxSelect.fill [("a", true); ("zzz", true); ("c", true)] demo_checkbox =
    (Raise (SelectItemNotFound (not_found_message "zzz" ["a"; "b"; "c"; "d"])),
     mkPage [checkbox_row "a" true; checkbox_row "b" true;
             checkbox_row "c" false; checkbox_row "d" true]
            false "Filter" [Input 0]).
Proof. reflexivity. Qed.

(** The calls of [fill] when the second call raises, and for the empty
    mapping. *)
Example recorded_fill_error :
  recorded_fill
    (λ c _, if decide (c = CallDeselect (Single "b") false)
            then Some NoSuchElementException else None)
    [("a", true); ("b", false); ("c", true)] [] =
    (Raise NoSuchElementException,
     [CallSelect (Single "a") false; CallDeselect (Single "b") false; CallClose]).
Proof. reflexivity. Qed.

Example recorded_fill_empty :
  recorded_fill (λ _ _, None) [] [] = (Ok (), [CallClose]).
Proof. reflexivity. Qed.


(** * Further properties *)

(** ** What the loops of the checkbox select touch *)

Lemma toggle_index_set_toggle (L k : string) (v : bool) (rs : list Row) :
  toggle_index L (set_toggle k v rs) = toggle_index L rs.
Proof.
  unfold toggle_index. induction rs as [|r rs IH]; [done|]. cbn.
  destruct (has_text k r && has_input r) eqn:Hr; cbn.
  - apply andb_prop in Hr as [_ Hin]. unfold has_text, has_input in *. cbn.
    by destruct (row_input r).
  - by rewrite IH.
Qed.

Lemma set_toggle_lookup_ne (k : string) (v : bool) (rs : list Row) (i j : nat) :
  toggle_index k rs = Some i → j ≠ i → set_toggle k v rs !! j = rs !! j.
Proof.
  intros Hi Hne.
  destruct (toggle_index_Some _ _ _ Hi) as (r & b & _ & _ & _ & Halt & Hid).
  destruct (decide (v = b)) as [->|Hvb].
  - by rewrite Hid.
  - assert (v = negb b) as -> by (by destruct v, b).
    rewrite <- Halt. by apply list_lookup_alter_ne.
Qed.

Lemma set_toggle_twice (k : string) (v w : bool) (rs : list Row) :
  set_toggle k v (set_toggle k w rs) = set_toggle k v rs.
Proof.
  induction rs as [|r rs IH]; [done|]. cbn.
  destruct (has_text k r && has_input r) eqn:Hr; cbn.
  - apply andb_prop in Hr as [Ht _]. unfold has_text, has_input in *. cbn.
    by rewrite Ht.
  - by rewrite Hr, IH.
Qed.

Section LoopFrame.

Variable v : bool.
Variable body : string → M Page unit.
Hypothesis Hbody : toggles_to v body.

(** However the loop ends: the labels are those of before; the lookups find
    the same toggle controls; a toggle control is in the state of before or,
    if it was asked for, in state [v]; the clicks made are on toggle controls
    that were asked for and were in the other state; and every entry whose
    toggle control was not asked for is as it was. *)
Lemma loop_frame (items : list string) (p p' : Page) (r : result unit) :
  for_each items body p = (r, p') →
  labels p' = labels p
  ∧ button_text p' = button_text p
  ∧ (∀ L, toggle_index L (rows p') = toggle_index L (rows p))
  ∧ (∀ L, toggle_state L (rows p') = toggle_state L (rows p)
          ∨ (L ∈ items ∧ toggle_state L (rows p') = Some v))
  ∧ (∃ cs, clicks p' = clicks p ++ cs
           ∧ Forall (λ el, ∃ L i, L ∈ items ∧ el = Input i
                             ∧ toggle_index L (rows p) = Some i
                             ∧ toggle_state L (rows p) = Some (negb v)) cs)
  ∧ (∀ j, (∀ L, L ∈ items → toggle_index L (rows p) ≠ Some j) →
          rows p' !! j = rows p !! j).
Proof using Hbody.
  revert p. induction items as [|x xs IH]; intros p.
  - intros [= <- <-]. split_and!; try done; [by left|].
    exists []. by rewrite app_nil_r.
  - rewrite for_each_cons. pose proof (Hbody x p) as Hx.
    destruct (toggle_index x (rows p)) as [i|] eqn:Hi.
    + destruct Hx as (b & Hb & ->). intros Hrun.
      destruct (IH _ Hrun) as (Hlab & Hbt & Hidx & Hst & (cs & Hcs & Hall) & Hrows).
      rewrite toggled_labels in Hlab. cbn [toggled rows clicks button_text] in *.
      assert (∀ L, toggle_index L (rows p') = toggle_index L (rows p)) as Hidx'.
      { intros L. by rewrite Hidx, toggle_index_set_toggle. }
      split_and!; try done.
      * intros L. destruct (Hst L) as [Heq|[HL Hv]].
        -- destruct (decide (x = L)) as [<-|Hne].
           ++ right. split; [apply list_elem_of_here|].
              by rewrite Heq, toggle_state_set_toggle, Hb.
           ++ left. by rewrite Heq, toggle_state_set_toggle_ne.
        -- right. split; [by apply list_elem_of_further|done].
      * exists ((if xorb b v then [Input i] else []) ++ cs).
        split; [by rewrite Hcs, <- app_assoc|].
        apply Forall_app. split.
        -- destruct (xorb b v) eqn:Hxor; [|by apply Forall_nil].
           apply Forall_singleton. exists x, i.
           split_and!; [apply list_elem_of_here|done..|].
           rewrite Hb. by destruct b, v.
        -- eapply Forall_impl; [exact Hall|].
           intros el (L & j & HL & -> & Hj & HLst). exists L, j.
           rewrite toggle_index_set_toggle in Hj.
           split_and!; [by apply list_elem_of_further|done..|].
           destruct (decide (x = L)) as [<-|Hne].
           ++ rewrite toggle_state_set_toggle, Hb in HLst. cbn in HLst.
              by destruct v.
           ++ by rewrite toggle_state_set_toggle_ne in HLst.
      * intros j Hj. rewrite Hrows.
        -- apply (set_toggle_lookup_ne x v (rows p) i); [done|].
           intros ->. by apply (Hj x (list_elem_of_here _ _)).
        -- intros L HL. rewrite toggle_index_set_toggle.
           apply Hj. by apply list_elem_of_further.
    + rewrite Hx. intros [= <- <-]. cbn [set_open rows clicks button_text].
      split_and!; try done; [by left|]. exists []. by rewrite app_nil_r.
Qed.

End LoopFrame.

(** ** item_select and item_deselect: clicks and frame *)

Lemma item_select_run (items : items_arg) (close : bool) (p : Page) :
  ∃ p1, for_each (BaseCheckboxSelect.as_list items)
          (BaseCheckboxSelect.select_one CheckboxSelect.item_element) p =
          ((CheckboxSelect.item_select items close p).1, p1)
        ∧ rows (CheckboxSelect.item_select items close p).2 = rows p1
        ∧ clicks (CheckboxSelect.item_select items close p).2 = clicks p1
        ∧ button_text (CheckboxSelect.item_select items close p).2 = button_text p1.
Proof.
  unfold CheckboxSelect.item_select. rewrite item_select_eval.
  destruct (for_each _ _ p) as [r p1]. exists p1. by destruct close.
Qed.

Lemma item_deselect_run (items : items_arg) (close : bool) (p : Page) :
  ∃ p1, for_each (BaseCheckboxSelect.as_list items)
          (BaseCheckboxSelect.deselect_one CheckboxSelect.item_element) p =
          ((CheckboxSelect.item_deselect items close p).1, p1)
        ∧ rows (CheckboxSelect.item_deselect items close p).2 = rows p1
        ∧ clicks (CheckboxSelect.item_deselect items close p).2 = clicks p1
        ∧ button_text (CheckboxSelect.item_deselect items close p).2 = button_text p1.
Proof.
  unfold CheckboxSelect.item_deselect. rewrite item_deselect_eval.
  destruct (for_each _ _ p) as [r p1]. exists p1. by destruct close.
Qed.

(** X1.  Whether [item_select] returns or raises, every click it has made is
    on the toggle control of one of the labels it was given, and that control
    was unselected when the call began. *)
Theorem item_select_clicks_only_unselected
    (items : items_arg) (close : bool) (p : Page) :
  ∃ cs, clicks (CheckboxSelect.item_select items close p).2 = clicks p ++ cs
    ∧ Forall (λ el, ∃ L i, L ∈ BaseCheckboxSelect.as_list items
                      ∧ el = Input i
                      ∧ toggle_index L (rows p) = Some i
                      ∧ toggle_state L (rows p) = Some false) cs.
Proof.
  destruct (item_select_run items close p) as (p1 & Hrun & _ & -> & _).
  by destruct (loop_frame true _ select_one_toggles _ _ _ _ Hrun)
    as (_ & _ & _ & _ & Hcs & _).
Qed.

(** X2.  Whether [item_deselect] returns or raises, every click it has made
    is on the toggle control of one of the labels it was given, and that
    control was selected when the call began. *)
Theorem item_deselect_clicks_only_selected
    (items : items_arg) (close : bool) (p : Page) :
  ∃ cs, clicks (CheckboxSelect.item_deselect items close p).2 = clicks p ++ cs
    ∧ Forall (λ el, ∃ L i, L ∈ BaseCheckboxSelect.as_list items
                      ∧ el = Input i
                      ∧ toggle_index L (rows p) = Some i
                      ∧ toggle_state L (rows p) = Some true) cs.
Proof.
  destruct (item_deselect_run items close p) as (p1 & Hrun & _ & -> & _).
  by destruct (loop_frame false _ deselect_one_toggles _ _ _ _ Hrun)
    as (_ & _ & _ & _ & Hcs & _).
Qed.

(** X3.  Whether [item_select] returns or raises: the entries keep their
    labels, the trigger button keeps its text, no toggle control that was
    selected is unselected, the toggle control of a label that was not given
    keeps its state, and an entry whose toggle control is not the one of a
    given label is unchanged. *)
Theorem item_select_frame (items : items_arg) (close : bool) (p : Page) :
  labels (CheckboxSelect.item_select items close p).2 = labels p
  ∧ button_text (CheckboxSelect.item_select items close p).2 = button_text p
  ∧ (∀ L, toggle_state L (rows p) = Some true →
          toggle_state L (rows (CheckboxSelect.item_select items close p).2)
            = Some true)
  ∧ (∀ L, L ∉ BaseCheckboxSelect.as_list items →
          toggle_state L (rows (CheckboxSelect.item_select items close p).2)
            = toggle_state L (rows p))
  ∧ (∀ j, (∀ L, L ∈ BaseCheckboxSelect.as_list items →
                toggle_index L (rows p) ≠ Some j) →
          rows (CheckboxSelect.item_select items close p).2 !! j = rows p !! j).
Proof.
  destruct (item_select_run items close p) as (p1 & Hrun & Hrows & _ & Hbt).
  destruct (loop_frame true _ select_one_toggles _ _ _ _ Hrun)
    as (Hlab & Hbt1 & _ & Hst & _ & Hframe).
  unfold labels in *. rewrite Hrows, Hbt.
  split_and!; try done.
  - intros L HL. destruct (Hst L) as [->|[_ ->]]; done.
  - intros L HL. destruct (Hst L) as [->|[HL' _]]; done.
Qed.

(** X4.  Whether [item_deselect] returns or raises: the entries keep their
    labels, the trigger button keeps its text, no toggle control that was
    unselected is selected, the toggle control of a label that was not given
    keeps its state, and an entry whose toggle control is not the one of a
    given label is unchanged. *)
Theorem item_deselect_frame (items : items_arg) (close : bool) (p : Page) :
  labels (CheckboxSelect.item_deselect items close p).2 = labels p
  ∧ button_text (CheckboxSelect.item_deselect items close p).2 = button_text p
  ∧ (∀ L, toggle_state L (rows p) = Some false →
          toggle_state L (rows (CheckboxSelect.item_deselect items close p).2)
            = Some false)
  ∧ (∀ L, L ∉ BaseCheckboxSelect.as_list items →
          toggle_state L (rows (CheckboxSelect.item_deselect items close p).2)
            = toggle_state L (rows p))
  ∧ (∀ j, (∀ L, L ∈ BaseCheckboxSelect.as_list items →
                toggle_index L (rows p) ≠ Some j) →
          rows (CheckboxSelect.item_deselect items close p).2 !! j = rows p !! j).
Proof.
  destruct (item_deselect_run items close p) as (p1 & Hrun & Hrows & _ & Hbt).
  destruct (loop_frame false _ deselect_one_toggles _ _ _ _ Hrun)
    as (Hlab & Hbt1 & _ & Hst & _ & Hframe).
  unfold labels in *. rewrite Hrows, Hbt.
  split_and!; try done.
  - intros L HL. destruct (Hst L) as [->|[_ ->]]; done.
  - intros L HL. destruct (Hst L) as [->|[HL' _]]; done.
Qed.

Lemma item_select_twice_witness :
  CheckboxSelect.item_select (Many ["a"; "c"]) true demo_checkbox =
    (Ok (), mkPage [checkbox_row "a" true; checkbox_row "b" true;
                    checkbox_row "c" true; checkbox_row "d" true]
                   false "Filter" [Input 0; Input 2])
  ∧ (∀ L, L ∈ ["a"; "c"] →
       toggle_state L [checkbox_row "a" true; checkbox_row "b" true;
                       checkbox_row "c" true; checkbox_row "d" true] = Some true).
Proof.
  split; [reflexivity|].
  exact (proj1 (item_select_twice ["a"; "c"] true true demo_checkbox _ eq_refl)).
Defined.

(** X6.  Once [item_deselect] has returned for a collection of labels, every
    one of them is unselected, and a second call with the same collection
    clicks nothing and changes no entry. *)
Theorem item_deselect_twice
    (items : list string) (close close' : bool) (p p1 : Page) :
  CheckboxSelect.item_deselect (Many items) close p = (Ok (), p1) →
  (∀ L, L ∈ items → toggle_state L (rows p1) = Some false)
  ∧ ∃ p2, CheckboxSelect.item_deselect (Many items) close' p1 = (Ok (), p2)
          ∧ clicks p2 = clicks p1 ∧ rows p2 = rows p1.
Proof.
  unfold CheckboxSelect.item_deselect. rewrite !item_deselect_eval.
  cbn [BaseCheckboxSelect.as_list].
  destruct (for_each items _ p) as [[[]|e] q] eqn:Hrun; [|done].
  cbn [fst snd]. intros [= <-].
  destruct (loop_completes false _ deselect_one_toggles items p q Hrun) as [_ Hall].
  assert (∀ L, L ∈ items →
            toggle_state L (rows (if close then set_open false q else q)) = Some false)
    as Hall' by (by destruct close).
  split; [done|].
  destruct (loop_settled false _ deselect_one_toggles items _ Hall')
    as (p2 & -> & Hr & Hc & _).
  exists (if close' then set_open false p2 else p2). by destruct close'.
Qed.

Lemma item_deselect_twice_witness :
  CheckboxSelect.item_deselect (Many ["b"; "d"]) true demo_checkbox =
    (Ok (), mkPage [checkbox_row "a" false; checkbox_row "b" false;
                    checkbox_row "c" false; checkbox_row "d" false]
                   false "Filter" [Input 1; Input 3])
  ∧ (∀ L, L ∈ ["b"; "d"] →
       toggle_state L [checkbox_row "a" false; checkbox_row "b" false;
                       checkbox_row "c" false; checkbox_row "d" false] = Some false).
Proof.
  split; [reflexivity|].
  exact (proj1 (item_deselect_twice ["b"; "d"] true true demo_checkbox _ eq_refl)).
Defined.

(** X7.  On a label whose toggle control is unselected, [item_select]
    followed by [item_deselect] clicks that control twice and leaves every
    entry as it was before the two calls. *)
Theorem select_then_deselect_restores
    (L : string) (close close' : bool) (p : Page) :
  toggle_state L (rows p) = Some false →
  ∃ i p1 p2,
    toggle_index L (rows p) = Some i
    ∧ CheckboxSelect.item_select (Single L) close p = (Ok (), p1)
    ∧ CheckboxSelect.item_deselect (Single L) close' p1 = (Ok (), p2)
    ∧ rows p2 = rows p
    ∧ clicks p2 = clicks p ++ [Input i; Input i].
Proof.
  intros Hb. destruct (toggle_state_Some _ _ _ Hb) as [i Hi].
  pose proof (select_one_toggles L p) as Hsel. rewrite Hi in Hsel.
  destruct Hsel as (b & Hb' & Hsel). assert (b = false) as -> by congruence.
  set (p1 := if close then set_open false (toggled L i false true p)
             else toggled L i false true p).
  assert (rows p1 = set_toggle L true (rows p)) as Hrows1 by by destruct close.
  assert (clicks p1 = clicks p ++ [Input i]) as Hclicks1 by by destruct close.
  pose proof (deselect_one_toggles L p1) as Hdes.
  rewrite Hrows1, toggle_index_set_toggle, Hi in Hdes.
  destruct Hdes as (b & Hb'' & Hdes).
  rewrite toggle_state_set_toggle, Hb in Hb''. injection Hb'' as <-.
  exists i, p1, (if close' then set_open false (toggled L i true false p1)
                 else toggled L i true false p1).
  unfold CheckboxSelect.item_select, CheckboxSelect.item_deselect.
  rewrite item_select_eval, item_deselect_eval. cbn [BaseCheckboxSelect.as_list].
  rewrite !for_each_cons, Hsel, Hdes. cbn [for_each ret fst snd].
  split_and!; try done.
  - transitivity (set_toggle L false (rows p1)); [by destruct close'|].
    rewrite Hrows1, set_toggle_twice.
    by destruct (toggle_index_Some _ _ _ Hi) as (r & b & _ & _ & Hst & _ & Hid);
      assert (b = false) as -> by congruence.
  - transitivity (clicks p1 ++ [Input i]); [by destruct close'|].
    by rewrite Hclicks1, <- app_assoc.
Qed.

Lemma select_then_deselect_restores_witness :
  ∃ i p1 p2,
    toggle_index "a" (rows demo_checkbox) = Some i
    ∧ CheckboxSelect.item_select (Single "a") true demo_checkbox = (Ok (), p1)
    ∧ CheckboxSelect.item_deselect (Single "a") true p1 = (Ok (), p2)
    ∧ rows p2 = rows demo_checkbox
    ∧ clicks p2 = clicks demo_checkbox ++ [Input i; Input i].
Proof.
  exact (select_then_deselect_restores "a" true true demo_checkbox eq_refl).
Defined.

(** ** fill: a label without a toggle control, and filling twice *)

Lemma for_each_app {W A} (f : A → M W unit) (xs ys : list A) (w : W) :
  for_each (xs ++ ys) f w =
    match for_each xs f w with
    | (Ok _, w1) => for_each ys f w1
    | (Raise e, w1) => (Raise e, w1)
    end.
Proof.
  revert w. induction xs as [|x xs IH]; intros w; [done|].
  cbn [app]. rewrite !for_each_cons.
  destruct (f x w) as [[[]|e] w1]; [apply IH|done].
Qed.

Lemma toggle_state_None (item : string) (rs : list Row) :
  toggle_state item rs = None → toggle_index item rs = None.
Proof.
  intros Hst. destruct (toggle_index item rs) as [i|] eqn:Hi; [|done].
  destruct (toggle_index_Some _ _ _ Hi) as (r & b & _ & _ & Hb & _). congruence.
Qed.

Lemma fill_entry_missing (k : string) (v : bool) (p : Page) :
  toggle_index k (rows p) = None →
  BaseCheckboxSelect.fill_entry
    CheckboxSelect.item_select CheckboxSelect.item_deselect (k, v) p =
    (Raise (SelectItemNotFound (not_found_message k (labels p))), set_open false p).
Proof.
  intros Hi.
  pose proof (select_one_toggles k p) as Hsel.
  pose proof (deselect_one_toggles k p) as Hdes.
  rewrite Hi in Hsel, Hdes.
  unfold BaseCheckboxSelect.fill_entry,
    CheckboxSelect.item_select, CheckboxSelect.item_deselect.
  destruct v.
  - rewrite item_select_eval. cbn [BaseCheckboxSelect.as_list].
    by rewrite for_each_cons, Hsel.
  - rewrite item_deselect_eval. cbn [BaseCheckboxSelect.as_list].
    by rewrite for_each_cons, Hdes.
Qed.

Lemma toggle_index_apply_fill (L : string) (m : PyDict.dict bool) (rs : list Row) :
  toggle_index L (apply_fill m rs) = toggle_index L rs.
Proof.
  revert rs. induction m as [|[k v] m IH]; intros rs; [done|].
  change (apply_fill ((k, v) :: m) rs) with (apply_fill m (set_toggle k v rs)).
  by rewrite IH, toggle_index_set_toggle.
Qed.

(** X8.  [fill] is not all-or-nothing: when the mapping reaches a label for
    which no toggle control is found, the entries before it have been
    applied, those after it are not looked at, the menu is closed, and the
    [SelectItemNotFound] for that label is raised with the labels of the
    page. *)
Theorem fill_stops_at_missing_label
    (pre post : PyDict.dict bool) (k : string) (v : bool) (p : Page) :
  (∀ k', k' ∈ pre.*1 → is_Some (toggle_state k' (rows p))) →
  toggle_state k (rows p) = None →
  ∃ p', CheckboxSelect.fill (pre ++ (k, v) :: post) p =
          (Raise (SelectItemNotFound (not_found_message k (labels p))), p')
        ∧ rows p' = apply_fill pre (rows p)
        ∧ is_open p' = false.
Proof.
  intros Hpre Hk.
  destruct (fill_loop_eval pre p Hpre) as (p1 & Hrun & Hrows & _).
  exists (set_open false p1).
  unfold CheckboxSelect.fill, BaseCheckboxSelect.fill, try_finally.
  rewrite for_each_app, Hrun, for_each_cons, fill_entry_missing.
  - unfold labels. by rewrite Hrows, apply_fill_labels.
  - rewrite Hrows, toggle_index_apply_fill. by apply toggle_state_None.
Qed.

Lemma fill_stops_at_missing_label_witness :
  ∃ p', CheckboxSelect.fill ([("a", true)] ++ ("zzz", true) :: [("c", true)])
          demo_checkbox =
          (Raise (SelectItemNotFound (not_found_message "zzz" (labels demo_checkbox))),
           p')
        ∧ rows p' = apply_fill [("a", true)] (rows demo_checkbox)
        ∧ is_open p' = false.
Proof.
  apply (fill_stops_at_missing_label [("a", true)] [("c", true)] "zzz" true
           demo_checkbox).
  - intros k' ->%list_elem_of_singleton. by eexists.
  - reflexivity.
Defined.

Lemma toggle_state_set_toggle_is_Some_inv (k k' : string) (v : bool) (rs : list Row) :
  is_Some (toggle_state k' (set_toggle k v rs)) → is_Some (toggle_state k' rs).
Proof.
  destruct (decide (k = k')) as [->|Hne].
  - rewrite toggle_state_set_toggle. by destruct (toggle_state k' rs); intros [? ?].
  - by rewrite toggle_state_set_toggle_ne.
Qed.

Lemma fill_loop_found (m : PyDict.dict bool) (p q : Page) :
  for_each m (BaseCheckboxSelect.fill_entry
                CheckboxSelect.item_select CheckboxSelect.item_deselect) p =
    (Ok (), q) →
  ∀ k, k ∈ m.*1 → is_Some (toggle_state k (rows p)).
Proof.
  revert p. induction m as [|[k v] m IH]; intros p Hrun k' Hk'.
  { by apply elem_of_nil in Hk'. }
  rewrite for_each_cons in Hrun.
  destruct (toggle_index k (rows p)) as [i|] eqn:Hi;
    [|by rewrite fill_entry_missing in Hrun].
  destruct (toggle_index_Some _ _ _ Hi) as (r & b & _ & _ & Hb & _).
  rewrite (fill_entry_eval k v p i b) in Hrun by done.
  rewrite fmap_cons in Hk'. apply elem_of_cons in Hk' as [->|Hk']; [by eexists|].
  apply (toggle_state_set_toggle_is_Some_inv k k' v). by apply (IH _ Hrun).
Qed.

Lemma toggle_state_apply_fill (m : PyDict.dict bool) (rs : list Row) :
  NoDup m.*1 →
  (∀ k, k ∈ m.*1 → is_Some (toggle_state k rs)) →
  (∀ k v, (k, v) ∈ m → toggle_state k (apply_fill m rs) = Some v)
  ∧ (∀ L, L ∉ m.*1 → toggle_state L (apply_fill m rs) = toggle_state L rs).
Proof.
  revert rs. induction m as [|[k v] m IH]; intros rs Hkeys Hall.
  - split; [|done]. intros k v Hkv. by apply elem_of_nil in Hkv.
  - rewrite fmap_cons in Hkeys. apply NoDup_cons in Hkeys as [Hk Hkeys].
    destruct (IH (set_toggle k v rs)) as [IHin IHout]; [done| |].
    { intros k' Hk'. apply toggle_state_set_toggle_is_Some, Hall.
      by apply list_elem_of_further. }
    split.
    + intros k' v' [[= -> ->]|Hin]%elem_of_cons; [|by apply IHin].
      change (apply_fill ((k, v) :: m) rs) with (apply_fill m (set_toggle k v rs)).
      rewrite IHout, toggle_state_set_toggle by done.
      by destruct (Hall k (list_elem_of_here _ _)) as [b ->].
    + intros L [Hne HL]%not_elem_of_cons.
      change (apply_fill ((k, v) :: m) rs) with (apply_fill m (set_toggle k v rs)).
      rewrite IHout by done. by apply toggle_state_set_toggle_ne.
Qed.

Lemma fill_loop_settled (m : PyDict.dict bool) (p : Page) :
  (∀ k v, (k, v) ∈ m → toggle_state k (rows p) = Some v) →
  ∃ p', for_each m (BaseCheckboxSelect.fill_entry
                      CheckboxSelect.item_select CheckboxSelect.item_deselect) p =
          (Ok (), p')
        ∧ rows p' = rows p ∧ clicks p' = clicks p.
Proof.
  revert p. induction m as [|[k v] m IH]; intros p Hall; [by exists p|].
  pose proof (Hall k v (list_elem_of_here _ _)) as Hst.
  destruct (toggle_state_Some _ _ _ Hst) as [i Hi].
  rewrite for_each_cons, (fill_entry_eval k v p i v) by done.
  assert (rows (toggled k i v v p) = rows p) as Hrows.
  { destruct (toggle_index_Some _ _ _ Hi) as (r & b & _ & _ & Hb & _ & Hid).
    assert (b = v) as -> by congruence. exact Hid. }
  assert (clicks (toggled k i v v p) = clicks p) as Hclicks.
  { cbn. rewrite xorb_nilpotent. apply app_nil_r. }
  destruct (IH (toggled k i v v p)) as (p' & Hrun & Hr & Hc).
  { intros k' v' Hin. rewrite Hrows. apply Hall. by apply list_elem_of_further. }
  exists p'. by rewrite Hrun, Hr, Hc, Hrows, Hclicks.
Qed.

(** X9.  Once [fill] has returned for a mapping, every toggle control it
    names is in the state the mapping gives it, and a second [fill] with the
    same mapping clicks nothing and changes no entry. *)
Theorem fill_twice (m : PyDict.dict bool) (p p1 : Page) :
  NoDup m.*1 →
  CheckboxSelect.fill m p = (Ok (), p1) →
  (∀ k v, (k, v) ∈ m → toggle_state k (rows p1) = Some v)
  ∧ ∃ p2, CheckboxSelect.fill m p1 = (Ok (), p2)
          ∧ rows p2 = rows p1 ∧ clicks p2 = clicks p1.
Proof.
  intros Hkeys. unfold CheckboxSelect.fill, BaseCheckboxSelect.fill, try_finally.
  destruct (for_each m _ p) as [[[]|e] q] eqn:Hrun; [|done].
  cbn. intros [= <-].
  pose proof (fill_loop_found m p q Hrun) as Hfound.
  destruct (fill_loop_eval m p Hfound) as (q' & Hrun' & Hrows & _).
  assert (q' = q) as -> by congruence.
  destruct (toggle_state_apply_fill m (rows p) Hkeys Hfound) as [Hin _].
  assert (∀ k v, (k, v) ∈ m → toggle_state k (rows (set_open false q)) = Some v)
    as Hall.
  { intros k v Hkv. cbn. rewrite Hrows. by apply Hin. }
  split; [done|].
  destruct (fill_loop_settled m _ Hall) as (p2 & -> & Hr & Hc).
  exists (set_open false p2). done.
Qed.

Lemma fill_twice_witness :
  CheckboxSelect.fill [("a", true); ("b", false)] demo_checkbox =
    (Ok (), mkPage [checkbox_row "a" true; checkbox_row "b" false;
                    checkbox_row "c" false; checkbox_row "d" true]
                   false "Filter" [Input 0; Input 1])
  ∧ ∃ p2, CheckboxSelect.fill [("a", true); ("b", false)]
            (mkPage [checkbox_row "a" true; checkbox_row "b" false;
                     checkbox_row "c" false; checkbox_row "d" true]
                    false "Filter" [Input 0; Input 1]) = (Ok (), p2)
          ∧ rows p2 = [checkbox_row "a" true; checkbox_row "b" false;
                       checkbox_row "c" false; checkbox_row "d" true]
          ∧ clicks p2 = [Input 0; Input 1].
Proof.
  split; [reflexivity|].
  refine (proj2 (fill_twice [("a", true); ("b", false)] demo_checkbox _ _ eq_refl)).
  compute_done.
Defined.

(** ** _get_items, items and item_enabled *)

(** X10.  [_get_items] returns the labels of all entries in rendered order,
    whatever the state of the menu before the call, clicks nothing and
    changes no entry; it leaves the menu open unless [close] is true, and the
    [items] property leaves it closed. *)
Theorem get_items_lists_labels (close : bool) (p : Page) :
  BaseCheckboxSelect._get_items close p =
    (Ok (row_text <$> rows p), set_open (negb close) p)
  ∧ BaseCheckboxSelect.items p = (Ok (row_text <$> rows p), set_open false p)
  ∧ rows (BaseCheckboxSelect._get_items close p).2 = rows p
  ∧ clicks (BaseCheckboxSelect._get_items close p).2 = clicks p.
Proof.
  unfold BaseCheckboxSelect.items. rewrite !get_items_labels.
  by destruct close.
Qed.

(** X11.  For a label that is rendered, [item_enabled] returns whether the
    first entry with that label is free of the [pf-m-disabled] class, whether
    or not the entry has a toggle control; it clicks nothing and leaves the
    menu closed when [close] is true and open otherwise. *)
Theorem item_enabled_reports_marker
    (item : string) (close : bool) (p : Page) (i : nat) (r : Row) :
  first_match (has_text item) (rows p) = Some i →
  rows p !! i = Some r →
  BaseCheckboxSelect.item_enabled item close p =
    (Ok (negb (bool_decide ("pf-m-disabled" ∈ row_classes r))),
     set_open (negb close) p).
Proof.
  intros Hi Hr. by rewrite item_enabled_eval, Hi, Hr.
Qed.

Lemma item_enabled_reports_marker_witness :
  BaseCheckboxSelect.item_enabled "Beta" false demo_select =
    (Ok false, set_open true demo_select).
Proof.
  exact (item_enabled_reports_marker "Beta" false demo_select 1
           (mkRow "Beta" ["pf-v5-c-menu__list-item"; "pf-m-disabled"] None)
           eq_refl eq_refl).
Defined.

(** X13.  An entry that is rendered without a toggle control can be asked
    for with [item_enabled], which answers, but not selected or deselected:
    [item_select] and [item_deselect] raise [SelectItemNotFound], with a
    message whose list of available items contains the very label, and click
    nothing. *)
Theorem entry_without_toggle_not_selectable
    (L : string) (close : bool) (p : Page) :
  L ∈ labels p →
  toggle_state L (rows p) = None →
  CheckboxSelect.item_select (Single L) close p =
    (Raise (SelectItemNotFound (not_found_message L (labels p))), set_open false p)
  ∧ CheckboxSelect.item_deselect (Single L) close p =
      (Raise (SelectItemNotFound (not_found_message L (labels p))), set_open false p)
  ∧ ArgList (labels p) ∈ msg_args (not_found_message L (labels p))
  ∧ ∃ b, CheckboxSelect.item_enabled L true p = (Ok b, set_open false p).
Proof.
  intros Hin Hst. pose proof (toggle_state_None _ _ Hst) as Hi.
  unfold CheckboxSelect.item_select, CheckboxSelect.item_deselect.
  rewrite item_select_eval, item_deselect_eval. cbn [BaseCheckboxSelect.as_list].
  rewrite !for_each_cons.
  pose proof (select_one_toggles L p) as Hsel.
  pose proof (deselect_one_toggles L p) as Hdes.
  rewrite Hi in Hsel, Hdes. rewrite Hsel, Hdes.
  split_and!; [by destruct close..| |by apply item_enabled_present_closes].
  cbn. apply list_elem_of_further, list_elem_of_further, list_elem_of_here.
Qed.

Lemma entry_without_toggle_not_selectable_witness :
  CheckboxSelect.item_select (Single "Alpha") true demo_select =
    (Raise (SelectItemNotFound (not_found_message "Alpha" ["Alpha"; "Beta"; "Gamma"])),
     demo_select)
  ∧ CheckboxSelect.item_enabled "Alpha" true demo_select = (Ok true, demo_select).
Proof.
  split; [|reflexivity].
  refine (proj1 (entry_without_toggle_not_selectable "Alpha" true demo_select _ eq_refl)).
  compute_done.
Defined.

(** ** read on a menu whose labels are distinct *)

Lemma set_fresh {V} (k : string) (v : V) (d : PyDict.dict V) :
  k ∉ d.*1 → PyDict.set k v d = d ++ [(k, v)].
Proof.
  induction d as [|[k' v'] d IH]; [done|]. cbn.
  intros [Hne Hnin]%not_elem_of_cons. rewrite decide_False by done.
  by rewrite IH.
Qed.

Lemma read_fold_distinct (rs : list Row) (d : PyDict.dict bool) :
  NoDup (d.*1 ++ (row_text <$> rs)) →
  foldl (λ d r, PyDict.set (row_text r) (checked r) d) d rs =
    d ++ ((λ r, (row_text r, checked r)) <$> rs).
Proof.
  revert d. induction rs as [|r rs IH]; intros d Hnd.
  - by rewrite app_nil_r.
  - cbn [foldl]. rewrite fmap_cons in Hnd. rewrite set_fresh.
    + rewrite IH; [by rewrite fmap_cons, <- app_assoc|].
      rewrite fmap_app. cbn. by rewrite <- app_assoc.
    + apply NoDup_app in Hnd as (_ & Hdisj & _). intros Hin.
      apply (Hdisj _ Hin), list_elem_of_here.
Qed.

(** X12.  On a menu whose labels are distinct, [read] returns exactly one
    pair per entry, in rendered order: the label with the checked state of
    its toggle control, or with [False] when it has none.  Its keys are the
    list that [items] returns. *)
Theorem read_distinct_labels (p : Page) :
  NoDup (labels p) →
  CheckboxSelect.read p =
    (Ok ((λ r, (row_text r,
                match row_input r with Some b => b | None => false end))
           <$> rows p),
     set_open false p)
  ∧ CheckboxSelect.items p =
      (Ok (PyDict.keys
             ((λ r, (row_text r,
                     match row_input r with Some b => b | None => false end))
                <$> rows p)),
       set_open false p).
Proof.
  intros Hnd. unfold CheckboxSelect.read. rewrite read_eval, items_labels.
  unfold read_dict. rewrite read_fold_distinct by done.
  split; [done|]. unfold PyDict.keys, labels.
  by rewrite <- list_fmap_compose.
Qed.

Lemma read_distinct_labels_witness :
  CheckboxSelect.read demo_checkbox =
    (Ok [("a", false); ("b", true); ("c", false); ("d", true)], demo_checkbox).
Proof.
  refine (proj1 (read_distinct_labels demo_checkbox _)). compute_done.
Defined.

(** ** BaseSelect: what the wrappers pass on *)

Section BaseSelectPassThrough.

Context {W : Type}.
Variable super_item_element : string → bool → M W elem.
Variable super_item_select : string → M W unit.
Variable self_items : M W (list string).
Variable self_enabled_items : M W (list string).

(** [BaseSelect.item_element] and [BaseSelect.item_select] return
    what the base returns and pass on, unchanged and without reading
    [self.items] or [self.enabled_items], every exception that is not the
    one they translate; and when reading [self.items] or
    [self.enabled_items] for the message raises, that exception is the one
    the caller gets. *)
Theorem wrappers_pass_on (item : string) (close : bool) (w w1 w2 : W) (e e' : exn) :
  (∀ el, super_item_element item close w = (Ok el, w1) →
         BaseSelect.item_element super_item_element self_items item close w
           = (Ok el, w1))
  ∧ (super_item_element item close w = (Raise e, w1) →
     is_DropdownItemNotFound e = false →
     BaseSelect.item_element super_item_element self_items item close w
       = (Raise e, w1))
  ∧ (super_item_element item close w = (Raise e, w1) →
     is_DropdownItemNotFound e = true →
     self_items w1 = (Raise e', w2) →
     BaseSelect.item_element super_item_element self_items item close w
       = (Raise e', w2))
  ∧ (super_item_select item w = (Ok (), w1) →
     BaseSelect.item_select super_item_select self_enabled_items item w
       = (Ok (), w1))
  ∧ (super_item_select item w = (Raise e, w1) →
     is_DropdownItemDisabled e = false →
     BaseSelect.item_select super_item_select self_enabled_items item w
       = (Raise e, w1))
  ∧ (super_item_select item w = (Raise e, w1) →
     is_DropdownItemDisabled e = true →
     self_enabled_items w1 = (Raise e', w2) →
     BaseSelect.item_select super_item_select self_enabled_items item w
       = (Raise e', w2)).
Proof.
  unfold BaseSelect.item_element, BaseSelect.item_select, try_except, bind.
  split_and!.
  - by intros el ->.
  - by intros -> ->.
  - by intros -> -> ->.
  - by intros ->.
  - by intros -> ->.
  - by intros -> -> ->.
Qed.

End BaseSelectPassThrough.

(** The lookup of the single select on a closed menu whose label is
    rendered passes on the element of the base. *)
Lemma wrappers_pass_on_witness :
  Select.item_element "Gamma" true demo_select = (Ok (ListItem 2), demo_select).
Proof.
  exact (proj1 (wrappers_pass_on
                  (Dropdown.item_element BaseSelect.ITEM_LOCATOR)
                  (Dropdown.item_select Select.item_element)
                  Select.items Select.enabled_items
                  "Gamma" true demo_select demo_select demo_select
                  NoSuchElementException NoSuchElementException)
               (ListItem 2) eq_refl).
Defined.
